(** * Rehabilitation Assistant (app.py): a shallow embedding and its properties

    The program is a Streamlit page.  [main] reads three tables, lets the
    user pick a body part, shows the physical tests of that body part with
    one check box each, and, on request, derives a set of conditions,
    filters the exercise table with it, shows the exercises in a table
    and builds a PDF report with [generate_pdf].

    Tables are lists of rows in file order, the query parameters are a
    finite map from names to value lists, [test_results] is a Python dict
    (insertion ordered), [conditions] is a Python set.  Exceptions are the
    left summand of a sum; what the page shows is a list of widgets that a
    small output monad accumulates. *)

From Stdlib Require Import Ascii String ZArith.
From stdpp Require Import gmap strings list pretty.

Local Open Scope string_scope.
Local Open Scope Z_scope.
Local Open Scope list_scope.

#[local] Set Warnings "-clear-no-such-hyp".

(** ** The part of the Python runtime the program relies on *)

(** The exceptions the modelled code can raise. *)
Inductive exn : Type :=
  | KeyError (key : string)
  | IndexError
  | ValueError.

(** A [dict] with string keys, in insertion order.  [d[k]] raises on a
    missing key, [d[k] = v] overwrites in place or appends. *)
Module PyDict.
Definition t (V : Type) : Type := list (string * V).

Fixpoint find {V} (k : string) (d : t V) : option V :=
  match d with
  | [] => None
  | (k', v) :: d' => if decide (k' = k) then Some v else find k d'
  end.

(** [d[k]] *)
Definition getitem {V} (d : t V) (k : string) : exn + V :=
  match find k d with
  | Some v => inr v
  | None => inl (KeyError k)
  end.

(** [d[k] = v] *)
Fixpoint setitem {V} (k : string) (v : V) (d : t V) : t V :=
  match d with
  | [] => [(k, v)]
  | (k', v') :: d' =>
      if decide (k' = k) then (k', v) :: d' else (k', v') :: setitem k v d'
  end.

(** [d.items()] *)
Definition items {V} (d : t V) : list (string * V) := d.
End PyDict.

(** [str] methods, on 7-bit ASCII text: Python maps case over all of
    Unicode, these definitions do so on the ASCII letters and leave
    every other character as it is. *)
Module PyStr.
Definition is_upper (c : ascii) : bool :=
  let n := N_of_ascii c in ((65 <=? n) && (n <=? 90))%N.

Definition is_lower (c : ascii) : bool :=
  let n := N_of_ascii c in ((97 <=? n) && (n <=? 122))%N.

Definition upper_char (c : ascii) : ascii :=
  if is_lower c then ascii_of_N (N_of_ascii c - 32) else c.

Definition lower_char (c : ascii) : ascii :=
  if is_upper c then ascii_of_N (N_of_ascii c + 32) else c.

Fixpoint map_chars (f : ascii → ascii) (s : string) : string :=
  match s with
  | EmptyString => EmptyString
  | String c s' => String (f c) (map_chars f s')
  end.

(** [s.replace(old, new)] for one-character [old] and [new]: every
    occurrence is replaced. *)
Definition replace_char (old new : ascii) (s : string) : string :=
  map_chars (λ c, if decide (c = old) then new else c) s.

(** [s.lower()] *)
Definition lower (s : string) : string := map_chars lower_char s.

(** [s.capitalize()]: the first character upper-cased, all the others
    lower-cased. *)
Definition capitalize (s : string) : string :=
  match s with
  | EmptyString => EmptyString
  | String c s' => String (upper_char c) (lower s')
  end.

(** Truth value of a string: non-empty. *)
Definition truthy (s : string) : bool :=
  match s with EmptyString => false | _ => true end.
End PyStr.

(** A Python [set] of strings is a [gset string].  The order in which a
    [for] loop visits it is not fixed by the language: an [iteration]
    is any enumeration of the elements, each exactly once. *)
Record iteration : Type := Iteration {
  iter : gset string → list string;
  iter_perm : ∀ s, iter s ≡ₚ elements s
}.

Definition elements_iteration : iteration :=
  {| iter := elements; iter_perm := λ s, reflexivity (elements s) |}.

(** ** The tables (section 3 of the specification; [load_data]) *)

Record Symptom : Type := {
  symptom_id : Z;
  symptom_name : string
}.

Record Test : Type := {
  test_id : Z;
  test_symptom_id : Z;
  test_name : string;
  test_description : string;
  positive_indication : string
}.

(** An empty [image] cell is read by pandas as NaN ([None] here), which
    is truthy and prints as [nan]. *)
Record Exercise : Type := {
  exercise_name : string;
  description : string;
  sets : Z;
  reps : Z;
  frequency : string;
  condition : string;
  image : option string
}.

Global Instance Symptom_eq_dec : EqDecision Symptom.
Proof. solve_decision. Defined.
Global Instance Test_eq_dec : EqDecision Test.
Proof. solve_decision. Defined.
Global Instance Exercise_eq_dec : EqDecision Exercise.
Proof. solve_decision. Defined.

(** [Series.unique()]: the distinct values in order of first appearance. *)
Fixpoint unique_from (seen : list string) (l : list string) : list string :=
  match l with
  | [] => []
  | x :: l' =>
      if decide (x ∈ seen) then unique_from seen l'
      else x :: unique_from (x :: seen) l'
  end.

Definition unique (l : list string) : list string := unique_from [] l.

(** [list.index(x)]: position of the first occurrence. *)
Fixpoint index_of (x : string) (l : list string) : exn + nat :=
  match l with
  | [] => inl ValueError
  | y :: l' =>
      if decide (y = x) then inr 0%nat
      else match index_of x l' with
           | inr i => inr (S i)
           | inl e => inl e
           end
  end.

(** [l[0]] *)
Definition item0 {A} (l : list A) : exn + A :=
  match l with
  | [] => inl IndexError
  | x :: _ => inr x
  end.

(** ** The report document ([generate_pdf]) *)

(** The document handed to [doc.build] is the list [elements] of
    reportlab flowables; a flowable is represented by its content.  The
    cell styling of the table is constant and left out.  [Paragraph]
    reads its text as markup and raises [ValueError] on text it cannot
    parse; that exception is not modelled, so [generate_pdf] below
    describes the list that is built when every text is accepted, and
    the properties of the page that depend on the document being built
    assume texts free of markup characters ([markup_free]). *)
Inductive style : Type := Title | Normal | Heading2.

Inductive Flowable : Type :=
  | Paragraph (text : string) (sty : style)
  | Spacer (width height : Z)
  | Table (data : list (list string)) (colWidths : list Z).

(** [f"- {condition.replace('_', ' ').capitalize()}"] *)
Definition condition_label (cond : string) : string :=
  "- " +:+ PyStr.capitalize (PyStr.replace_char "_" " " cond).

(** [f"{exercise['sets']}x{exercise['reps']}"] *)
Definition sets_x_reps (e : Exercise) : string :=
  pretty (sets e) +:+ "x" +:+ pretty (reps e).

Definition failed_tests (test_results : PyDict.t bool) : list string :=
  fst <$> filter (λ kv, kv.2 = true) (PyDict.items test_results).

Definition failed_tests_section (test_results : PyDict.t bool) : list Flowable :=
  [Paragraph "Failed Tests" Heading2; Spacer 1 12] ++
  (match failed_tests test_results with
   | [] => [Paragraph "No tests were failed." Normal]
   | names => (λ test, Paragraph ("- " +:+ test) Normal) <$> names
   end) ++
  [Spacer 1 24].

Definition diagnostic_section (o : iteration) (conds : gset string)
    : list Flowable :=
  [Paragraph "Diagnostic" Heading2; Spacer 1 12] ++
  (if decide (conds ≠ ∅)
   then (λ c, Paragraph (condition_label c) Normal) <$> iter o conds
   else [Paragraph "No specific conditions identified." Normal]) ++
  [Spacer 1 24].

Definition table_header : list string :=
  ["Exercise"; "Description"; "Sets x Reps"; "Frequency"].

Definition table_row (e : Exercise) : list string :=
  [exercise_name e; description e; sets_x_reps e; frequency e].

Definition training_advice_section (recommended : list Exercise)
    : list Flowable :=
  [Paragraph "Training Advice" Heading2; Spacer 1 12] ++
  (match recommended with
   | _ :: _ =>
       [Table (table_header :: (table_row <$> recommended)) [100; 200; 80; 80]]
   | [] => [Paragraph "No exercises recommended." Normal]
   end).

Definition generate_pdf (o : iteration) (test_results : PyDict.t bool)
    (conds : gset string) (recommended : list Exercise) : list Flowable :=
  [Paragraph "Rehabilitation Assistant Report" Title;
   Spacer 1 12;
   Paragraph "This report provides a summary of your rehabilitation assessment, including failed tests, diagnostic conclusions, and recommended exercises." Normal;
   Spacer 1 24] ++
  failed_tests_section test_results ++
  diagnostic_section o conds ++
  training_advice_section recommended.

(** ** The page ([main]) *)

(** One row of [exercise_data], the table shown on screen. *)
Record ExerciseRow : Type := {
  Name : string;
  Description : string;
  SetsReps : string;
  Frequency : string;
  Image : string
}.

(** What the page shows, one constructor per Streamlit call. *)
Inductive Widget : Type :=
  | st_title (text : string)
  | st_header (text : string)
  | st_warning (text : string)
  | st_selectbox (label : string) (options : list string) (index : nat)
  | st_write (text : string)
  | st_columns (spec : list Z)
  | st_in_column (col : nat) (w : Widget)
  | st_checkbox (label key : string) (value : bool)
  | st_button (label : string)
  | st_write_table (rows : list ExerciseRow)
  | st_download_button (label : string) (data : list Flowable)
      (file_name mime : string).

(** What one run of the page receives from outside: the query string,
    the state of the widgets the user has touched, and the file system
    test behind [os.path.exists]. *)
Record Session : Type := {
  query_params : gmap string (list string);
  selectbox_state : option string;
  checkbox_state : string → option bool;
  button_clicked : bool;
  path_exists : string → bool
}.

(** Exceptions compose as in the source: the first one ends the run. *)
Global Instance exn_ret : MRet (sum exn) := λ A a, inr a.
Global Instance exn_bind : MBind (sum exn) := λ A B k r,
  match r with
  | inl e => inl e
  | inr a => k a
  end.

(** The page monad: a computation appends to the widgets shown so far
    and either returns or raises. *)
Definition M (A : Type) : Type := list Widget → (exn + A) * list Widget.

Global Instance M_ret : MRet M := λ A a out, (inr a, out).
Global Instance M_bind : MBind M := λ A B k m out,
  match m out with
  | (inl e, out') => (inl e, out')
  | (inr a, out') => k a out'
  end.

Definition emit (w : Widget) : M () := λ out, (inr (), out ++ [w]).
Definition lift {A} (r : exn + A) : M A := λ out, (r, out).
Definition run {A} (m : M A) : (exn + A) * list Widget := m [].

(** [query_params.get('test_mode', [''])[0] == 'true'] *)
Definition test_mode (params : gmap string (list string)) : exn + bool :=
  v ← item0 (default [EmptyString] (params !! "test_mode"));
  mret (bool_decide (v = "true")).

(** [symptoms['symptom_name'].unique()] *)
Definition body_parts (symptoms : list Symptom) : list string :=
  unique (symptom_name <$> symptoms).

(** [st.selectbox]: the option the user has picked if it is on offer,
    the option at [index] otherwise; [None] when there is none. *)
Definition selectbox_value (s : Session) (options : list string) (index : nat)
    : option string :=
  match selectbox_state s with
  | Some pick => if decide (pick ∈ options) then Some pick else options !! index
  | None => options !! index
  end.

(** Step 1, lines 98-112: the default body part, its validation and the
    select box.  The result is the selected body part. *)
Definition select_body_part (s : Session) (parts : list string)
    : M (option string) :=
  part0 ← lift (item0 parts);
  default_body_part ←
    lift (item0 (default [part0] (query_params s !! "body_part")));
  default_body_part ←
    (if decide (default_body_part ∉ parts)
     then
       part0 ← lift (item0 parts);
       emit (st_warning ("Invalid body part '" +:+ default_body_part +:+
                         "' specified in URL. Defaulting to '" +:+ part0 +:+
                         "'."));;
       lift (item0 parts)
     else mret default_body_part);
  index ← lift (index_of default_body_part parts);
  emit (st_selectbox "Which part of your body is experiencing pain?"
          parts index);;
  mret (selectbox_value s parts index).

(** [tests[tests['symptom_id'] == symptom_id]] *)
Definition relevant_tests (tests : list Test) (sid : Z) : list Test :=
  filter (λ t, test_symptom_id t = sid) tests.

(** [st.checkbox(label, key=..., value=...)]: the state kept under the
    key if the user has touched the box, the default otherwise. *)
Definition checkbox_value (s : Session) (key : string) (value : bool) : bool :=
  default value (checkbox_state s key).

(** Step 2, lines 127-136: one row of three columns per relevant test;
    the answers are stored in [test_results] under the test name.
    Streamlit refuses a second widget with a key already in use
    ([DuplicateWidgetID]); that exception is not modelled, so this
    function describes step 2 for relevant tests with distinct names,
    and the properties of the page that depend on it assume so. *)
Fixpoint ask_tests (s : Session) (failed_test_ids : list string)
    (rows : list Test) (test_results : PyDict.t bool) : M (PyDict.t bool) :=
  match rows with
  | [] => mret test_results
  | test :: rows' =>
      emit (st_columns [1; 2; 1]);;
      emit (st_in_column 0 (st_write (test_name test)));;
      emit (st_in_column 1 (st_write (test_description test)));;
      let default_checked :=
        bool_decide (pretty (test_id test) ∈ failed_test_ids) in
      emit (st_in_column 2
              (st_checkbox "Pain" (test_name test) default_checked));;
      ask_tests s failed_test_ids rows'
        (PyDict.setitem (test_name test)
           (checkbox_value s (test_name test) default_checked) test_results)
  end.

(** Lines 143-146, "find conditions based on positive tests": the loop
    over the relevant tests, started from the empty set. *)
Fixpoint find_conditions_from (test_results : PyDict.t bool)
    (rows : list Test) (conds : gset string) : exn + gset string :=
  match rows with
  | [] => inr conds
  | test :: rows' =>
      failed ← PyDict.getitem test_results (test_name test);
      find_conditions_from test_results rows'
        (if failed : bool then {[positive_indication test]} ∪ conds else conds)
  end.

Definition find_conditions (test_results : PyDict.t bool) (rows : list Test)
    : exn + gset string :=
  find_conditions_from test_results rows ∅.

(** Line 157: [exercises[exercises['condition'].isin(conditions)]] *)
Definition recommended_exercises (exercises : list Exercise)
    (conds : gset string) : list Exercise :=
  filter (λ e, condition e ∈ conds) exercises.

Definition dquote : string := String "034" EmptyString.

(** Lines 162-163. *)
Definition image_html (s : Session) (e : Exercise) : string :=
  let image_path :=
    match image e with
    | None => Some "pictures/nan"
    | Some file =>
        if PyStr.truthy file then Some ("pictures/" +:+ file) else None
    end in
  match image_path with
  | Some path =>
      if PyStr.truthy path && path_exists s path
      then "<img src=" +:+ dquote +:+ path +:+ dquote +:+ " style=" +:+
           dquote +:+ "height:100px;" +:+ dquote +:+ ">"
      else EmptyString
  | None => EmptyString
  end.

(** Lines 160-170: the rows of the table shown on screen. *)
Definition exercise_data (s : Session) (recommended : list Exercise)
    : list ExerciseRow :=
  (λ e, {| Name := exercise_name e;
           Description := description e;
           SetsReps := sets_x_reps e;
           Frequency := frequency e;
           Image := image_html s e |}) <$> recommended.

(** Lines 140-189: the body of step 3. *)
Definition report (o : iteration) (s : Session) (exercises : list Exercise)
    (test_results : PyDict.t bool) (rows : list Test) : M () :=
  emit (st_header "Diagnostic");;
  conds ← lift (find_conditions test_results rows);
  if decide (conds ≠ ∅) then
    emit (st_write
            "Based on your symptoms, you may have the following conditions:");;
    foldr (λ c k, emit (st_write (condition_label c));; k) (mret ())
      (iter o conds);;
    emit (st_header "Your Rehabilitation Plan");;
    emit (st_write "Here are the recommended exercises:");;
    let recommended := recommended_exercises exercises conds in
    emit (st_write_table (exercise_data s recommended));;
    let pdf_buffer := generate_pdf o test_results conds recommended in
    emit (st_download_button "Download Report as PDF" pdf_buffer
            "rehabilitation_report.pdf" "application/pdf")
  else
    emit (st_write
            "No specific conditions identified. Please consult a healthcare professional.").

(** Line 139: [if st.button(...) or test_mode:] and what it guards. *)
Definition step3 (o : iteration) (s : Session) (exercises : list Exercise)
    (test_mode : bool) (test_results : PyDict.t bool) (rows : list Test)
    : M () :=
  emit (st_button "Get Diagnostic and Generate Exercise Plan");;
  if button_clicked s || test_mode
  then report o s exercises test_results rows
  else mret ().

Definition main (o : iteration)
    (symptoms : list Symptom) (tests : list Test) (exercises : list Exercise)
    (s : Session) : M () :=
  emit (st_title "Rehabilitation Assistant");;
  test_mode ← lift (test_mode (query_params s));
  emit (st_header "Step 1: Identify Your Pain Location");;
  let body_parts := body_parts symptoms in
  selected_body_part ← select_body_part s body_parts;
  match selected_body_part with
  | Some selected =>
      if PyStr.truthy selected then
        sid ← lift (item0 (symptom_id <$>
                 filter (λ r, symptom_name r = selected) symptoms));
        emit (st_header "Step 2: Perform Physical Tests");;
        emit (st_write
          "Please perform these tests carefully. Stop if you experience severe pain.");;
        let relevant_tests := relevant_tests tests sid in
        let failed_test_ids := default [] (query_params s !! "failed_tests") in
        test_results ← ask_tests s failed_test_ids relevant_tests [];
        step3 o s exercises test_mode test_results relevant_tests
      else mret ()
  | None => mret ()
  end.

(** ** What the two exercise tables contain *)

(** The exercise names in the tables written to the screen. *)
Definition screen_exercise_names (out : list Widget) : list string :=
  out ≫= λ w,
    match w with
    | st_write_table rows => Name <$> rows
    | _ => []
    end.

(** The exercise names in the tables of a document: the first cell of
    every row below the header row. *)
Definition document_exercise_names (doc : list Flowable) : list string :=
  doc ≫= λ f,
    match f with
    | Table (_ :: rows) _ => omap head rows
    | _ => []
    end.

(** The same for the documents offered for download by the page. *)
Definition download_exercise_names (out : list Widget) : list string :=
  out ≫= λ w,
    match w with
    | st_download_button _ doc _ _ => document_exercise_names doc
    | _ => []
    end.

(** ** Notions used to state the properties *)

(** A test has an answer when [test_results] has an entry for its name. *)
Definition answered (test_results : PyDict.t bool) (t : Test) : Prop :=
  is_Some (PyDict.find (test_name t) test_results).

Global Instance answered_dec test_results t : Decision (answered test_results t).
Proof. unfold answered. apply _. Defined.

(** The tests of [rows] that [test_results] records as failed. *)
Definition positive_tests (test_results : PyDict.t bool) (rows : list Test)
    : list Test :=
  filter (λ t, PyDict.find (test_name t) test_results = Some true) rows.


(** The label text in the words of the specification: every underscore
    replaced by a space and the first letter capitalized, the rest of
    the identifier as it is. *)
Definition spec_condition_text (cond : string) : string :=
  match PyStr.replace_char "_" " " cond with
  | EmptyString => EmptyString
  | String ch rest => String (PyStr.upper_char ch) rest
  end.

(** ** Sample data: the knee pain scenario of the specification *)

Module Sample.
Definition knee_pain : Symptom :=
  {| symptom_id := 1; symptom_name := "Knee Pain" |}.
Definition back_pain : Symptom :=
  {| symptom_id := 2; symptom_name := "Back Pain" |}.
Definition symptoms : list Symptom := [knee_pain; back_pain].

Definition squat : Test :=
  {| test_id := 10; test_symptom_id := 1; test_name := "Single leg squat";
     test_description := "Squat slowly on the painful leg.";
     positive_indication := "patellar_tendinopathy" |}.
Definition step_down : Test :=
  {| test_id := 11; test_symptom_id := 1; test_name := "Step down";
     test_description := "Step down from a low box.";
     positive_indication := "ACL_tear" |}.
Definition tests : list Test := [squat; step_down].

Definition decline_squat : Exercise :=
  {| exercise_name := "Decline squat"; description := "Slow eccentric squat.";
     sets := 3; reps := 15; frequency := "Daily";
     condition := "patellar_tendinopathy"; image := Some "decline_squat.png" |}.
Definition bridge : Exercise :=
  {| exercise_name := "Bridge"; description := "Hold for five seconds.";
     sets := 2; reps := 10; frequency := "Twice a week";
     condition := "low_back_strain"; image := None |}.
Definition exercises : list Exercise := [decline_squat; bridge].

Definition session (params : gmap string (list string)) : Session :=
  {| query_params := params;
     selectbox_state := None;
     checkbox_state := λ _, None;
     button_clicked := false;
     path_exists := λ _, false |}.

Definition one_failed : PyDict.t bool :=
  [("Single leg squat", true); ("Step down", false)].
Definition none_failed : PyDict.t bool :=
  [("Single leg squat", false); ("Step down", false)].
End Sample.

(** ** Further notions: what step 2 stores and what a document holds *)

(** The answer step 2 stores for a test: the state of its check box,
    which starts checked when the test id is among [failed_tests]. *)
Definition answer (s : Session) (failed_test_ids : list string) (t : Test)
    : bool :=
  checkbox_value s (test_name t)
    (bool_decide (pretty (test_id t) ∈ failed_test_ids)).

(** The dictionary step 2 leaves behind: the answers stored one test
    after the other, starting from the empty dictionary. *)
Definition stored_answers_from (s : Session) (failed_test_ids : list string)
    (test_results : PyDict.t bool) (rows : list Test) : PyDict.t bool :=
  foldl (λ d t, PyDict.setitem (test_name t) (answer s failed_test_ids t) d)
    test_results rows.

Definition stored_answers (s : Session) (failed_test_ids : list string)
    (rows : list Test) : PyDict.t bool :=
  stored_answers_from s failed_test_ids [] rows.

(** The widgets step 2 shows for a test. *)
Definition test_widgets (failed_test_ids : list string) (t : Test)
    : list Widget :=
  [st_columns [1; 2; 1];
   st_in_column 0 (st_write (test_name t));
   st_in_column 1 (st_write (test_description t));
   st_in_column 2
     (st_checkbox "Pain" (test_name t)
        (bool_decide (pretty (test_id t) ∈ failed_test_ids)))].

(** The section headings of a document, in order. *)
Definition headings (doc : list Flowable) : list string :=
  omap (λ f, match f with
             | Paragraph text Heading2 => Some text
             | _ => None
             end) doc.

(** The tables of a document: cell data and column widths. *)
Definition tables (doc : list Flowable) : list (list (list string) * list Z) :=
  omap (λ f, match f with
             | Table data widths => Some (data, widths)
             | _ => None
             end) doc.

(** The documents a page offers for download. *)
Definition downloads (out : list Widget) : list (list Flowable) :=
  omap (λ w, match w with
             | st_download_button _ doc _ _ => Some doc
             | _ => None
             end) out.



(** A string without the letter [x], the separator of [sets_x_reps]. *)
Fixpoint without_x (s : string) : Prop :=
  match s with
  | EmptyString => True
  | String c s' => c ≠ "x"%char ∧ without_x s'
  end.

(** * Properties *)

(** ** The dictionary *)

Section dict_facts.
Context {V : Type}.
Implicit Types (d : PyDict.t V) (k : string) (v : V).

Lemma find_setitem_eq d k v : PyDict.find k (PyDict.setitem k v d) = Some v.
Proof.
  induction d as [|[k' v'] d IH]; simpl.
  - by rewrite decide_True.
  - destruct (decide (k' = k)) as [->|Hne]; simpl.
    + by rewrite decide_True.
    + by rewrite decide_False.
Qed.

Lemma find_setitem_ne d k k' v :
  k ≠ k' → PyDict.find k' (PyDict.setitem k v d) = PyDict.find k' d.
Proof.
  intros Hne. induction d as [|[k0 v0] d IH]; simpl.
  - by rewrite decide_False.
  - destruct (decide (k0 = k)) as [->|Hk0]; simpl.
    + by rewrite !decide_False.
    + destruct (decide (k0 = k')); [done | apply IH].
Qed.

Lemma find_setitem_is_Some d k k' v :
  is_Some (PyDict.find k' d) → is_Some (PyDict.find k' (PyDict.setitem k v d)).
Proof.
  destruct (decide (k = k')) as [->|Hne].
  - rewrite find_setitem_eq. eauto.
  - by rewrite find_setitem_ne.
Qed.

Lemma getitem_inr d k v : PyDict.getitem d k = inr v ↔ PyDict.find k d = Some v.
Proof.
  unfold PyDict.getitem. destruct (PyDict.find k d); split; congruence.
Qed.
End dict_facts.

(** ** The loop that finds the conditions *)

Section find_conditions_facts.
Variable test_results : PyDict.t bool.

Lemma find_conditions_from_answered rows conds :
  Forall (answered test_results) rows →
  find_conditions_from test_results rows conds =
    inr (list_to_set (positive_indication <$> positive_tests test_results rows)
         ∪ conds).
Proof.
  intros Hall. revert conds.
  induction Hall as [|t rows [b Hb] _ IH]; intros conds; simpl.
  - f_equal. set_solver.
  - unfold PyDict.getitem, positive_tests. rewrite Hb. simpl.
    rewrite IH, filter_cons. destruct b.
    + rewrite decide_True by done. f_equal. set_solver.
    + rewrite decide_False by congruence. done.
Qed.

Lemma find_conditions_from_unanswered rows conds :
  ¬ Forall (answered test_results) rows →
  ∃ key, find_conditions_from test_results rows conds = inl (KeyError key).
Proof.
  revert conds. induction rows as [|t rows IH]; intros conds Hnot.
  - destruct Hnot. constructor.
  - simpl. unfold PyDict.getitem.
    destruct (PyDict.find (test_name t) test_results) as [b|] eqn:Hb; simpl.
    + apply IH. intros Hall. apply Hnot. constructor; [by exists b | done].
    + eauto.
Qed.

Lemma find_conditions_answered rows :
  Forall (answered test_results) rows →
  find_conditions test_results rows =
    inr (list_to_set (positive_indication <$> positive_tests test_results rows)).
Proof.
  intros Hall. unfold find_conditions.
  rewrite find_conditions_from_answered by done. f_equal. set_solver.
Qed.

Lemma elem_of_positive_conditions rows c :
  c ∈@{gset string}
    list_to_set (positive_indication <$> positive_tests test_results rows) ↔
  ∃ t, t ∈ rows ∧ PyDict.getitem test_results (test_name t) = inr true ∧
       positive_indication t = c.
Proof.
  rewrite elem_of_list_to_set, list_elem_of_fmap. unfold positive_tests.
  split.
  - intros (t & -> & Ht). apply list_elem_of_filter in Ht as [Hb Ht].
    exists t. by rewrite getitem_inr.
  - intros (t & Ht & Hb & <-). exists t. split; [done|].
    apply list_elem_of_filter. by rewrite <- getitem_inr.
Qed.
End find_conditions_facts.

(** ** Running page computations *)

Lemma run_bind {A B} (m : M A) (k : A → M B) out :
  (m ≫= k) out =
    match m out with
    | (inl e, out') => (inl e, out')
    | (inr a, out') => k a out'
    end.
Proof. reflexivity. Qed.

Lemma run_emit_bind {B} w (k : () → M B) out :
  (emit w ≫= k) out = k () (out ++ [w]).
Proof. reflexivity. Qed.

Lemma run_lift_bind {A B} (r : exn + A) (k : A → M B) out :
  (lift r ≫= k) out =
    match r with
    | inl e => (inl e, out)
    | inr a => k a out
    end.
Proof. unfold mbind, M_bind, lift. by destruct r. Qed.

Lemma run_ret {A} (a : A) out : (mret a : M A) out = (inr a, out).
Proof. reflexivity. Qed.

(** Step 2 always completes, and leaves an answer for every test shown. *)
Lemma ask_tests_answers s failed_test_ids rows :
  ∀ test_results out,
  ∃ test_results' out',
    ask_tests s failed_test_ids rows test_results out = (inr test_results', out') ∧
    (∀ k, is_Some (PyDict.find k test_results) →
          is_Some (PyDict.find k test_results')) ∧
    Forall (answered test_results') rows.
Proof.
  induction rows as [|t rows IH]; intros test_results out; simpl.
  - exists test_results, out. rewrite run_ret. by split_and!.
  - rewrite !run_emit_bind.
    match goal with
    | |- context [ask_tests _ _ _ ?d ?o] =>
        destruct (IH d o) as (d' & out' & Hrun & Hkeep & Hall)
    end.
    exists d', out'. split_and!; [done | |].
    + intros k Hk. by apply Hkeep, find_setitem_is_Some.
    + constructor; [|done]. apply Hkeep. unfold answered.
      rewrite find_setitem_eq. eauto.
Qed.

(** ** The diagnostic computation *)

(** C1.  For every [test_results] that holds an answer for the name of
    each relevant test, the loop returns the set of the positive
    indications of exactly those relevant tests whose answer is true:
    a condition is in the result if and only if some relevant test with
    a true answer indicates it, and the result, being a set, lists each
    condition once however many tests indicate it. *)
Theorem find_conditions_exact (test_results : PyDict.t bool) (rows : list Test) :
  (∀ t, t ∈ rows → is_Some (PyDict.find (test_name t) test_results)) →
  ∃ conds : gset string,
    find_conditions test_results rows = inr conds ∧
    (∀ c, c ∈ conds ↔
          ∃ t, t ∈ rows ∧
               PyDict.getitem test_results (test_name t) = inr true ∧
               positive_indication t = c) ∧
    (∀ o : iteration, NoDup (iter o conds)).
Proof.
  intros Hall. apply Forall_forall in Hall.
  eexists. split; [by apply find_conditions_answered|]. split.
  - apply elem_of_positive_conditions.
  - intros o. rewrite (iter_perm o). apply NoDup_elements.
Qed.

Lemma find_conditions_exact_witness :
  ∃ conds : gset string,
    find_conditions Sample.one_failed Sample.tests = inr conds ∧
    (∀ c, c ∈ conds ↔
          ∃ t, t ∈ Sample.tests ∧
               PyDict.getitem Sample.one_failed (test_name t) = inr true ∧
               positive_indication t = c) ∧
    (∀ o : iteration, NoDup (iter o conds)).
Proof.
  apply (find_conditions_exact Sample.one_failed Sample.tests).
  intros t Ht. apply Forall_forall with (x := t) (l := Sample.tests); [|done].
  repeat constructor; vm_compute; eauto.
Defined.

(** The scenario of the specification: one of two knee tests failed. *)
Example find_conditions_knee_pain :
  find_conditions Sample.one_failed Sample.tests =
    inr {[ "patellar_tendinopathy" ]}.
Proof.
  rewrite find_conditions_answered
    by (repeat constructor; vm_compute; eauto).
  f_equal.
Qed.

(** Two tests that indicate the same condition give it once. *)
Example find_conditions_collapses_duplicates :
  find_conditions [("a", true); ("b", true)]
    [ {| test_id := 1; test_symptom_id := 1; test_name := "a";
         test_description := "first"; positive_indication := "strain" |};
      {| test_id := 2; test_symptom_id := 1; test_name := "b";
         test_description := "second"; positive_indication := "strain" |} ] =
    inr {[ "strain" ]}.
Proof.
  rewrite find_conditions_answered
    by (repeat constructor; vm_compute; eauto).
  f_equal.
Qed.

(** C3, as stated, fails: a relevant test whose name has no entry makes
    the subscript at line 145 raise. *)
Lemma missing_answer_raises :
  PyDict.find (test_name Sample.squat) [("Step down", false)] = None ∧
  find_conditions [("Step down", false)] Sample.tests =
    inl (KeyError "Single leg squat").
Proof. split; reflexivity. Qed.

(** C3, amended.  The loop returns a set exactly when [test_results] has
    an entry for the name of every relevant test (otherwise the
    subscript raises).  In [main] it is run on the dictionary that step
    2 has just filled from the same relevant tests: when these have
    distinct names (the check boxes are keyed by test name), that
    dictionary has an entry for each of them, so the loop does not fail
    there, and the result holds the indications of the tests answered
    true only; a test answered false adds nothing. *)
Theorem find_conditions_total_on_asked_tests :
  (∀ (test_results : PyDict.t bool) (rows : list Test),
     (∃ conds, find_conditions test_results rows = inr conds) ↔
     (∀ t, t ∈ rows → is_Some (PyDict.find (test_name t) test_results))) ∧
  (∀ (s : Session) (failed_test_ids : list string) (rows : list Test)
     (out : list Widget),
     NoDup (test_name <$> rows) →
     ∃ test_results out' conds,
       ask_tests s failed_test_ids rows [] out = (inr test_results, out') ∧
       (∀ t, t ∈ rows → is_Some (PyDict.find (test_name t) test_results)) ∧
       find_conditions test_results rows = inr conds ∧
       (∀ c, c ∈ conds ↔
             ∃ t, t ∈ rows ∧
                  PyDict.getitem test_results (test_name t) = inr true ∧
                  positive_indication t = c)).
Proof.
  split.
  - intros test_results rows.
    change (∀ t, t ∈ rows → is_Some (PyDict.find (test_name t) test_results))
      with (∀ t, t ∈ rows → answered test_results t).
    rewrite <- Forall_forall. split.
    + intros [conds Hrun].
      destruct (decide (Forall (answered test_results) rows)) as [|Hnot]; [done|].
      destruct (find_conditions_from_unanswered test_results rows ∅ Hnot)
        as [key Hkey].
      unfold find_conditions in Hrun. congruence.
    + intros Hall. eexists. by apply find_conditions_answered.
  - intros s failed_test_ids rows out _.
    destruct (ask_tests_answers s failed_test_ids rows [] out)
      as (test_results & out' & Hrun & _ & Hall).
    exists test_results, out'. eexists. split_and!.
    + done.
    + by apply Forall_forall.
    + by apply find_conditions_answered.
    + apply elem_of_positive_conditions.
Qed.

(** ** The exercise lookup *)

(** C2.  The filter at line 157 is sound and complete: every
    recommended exercise is a row of the exercises table whose
    condition is in the condition set, and every row of the exercises
    table whose condition is in the condition set is recommended. *)
Theorem recommended_exercises_sound_complete (exercises : list Exercise)
    (conds : gset string) :
  Forall (λ e, e ∈ exercises ∧ condition e ∈ conds)
    (recommended_exercises exercises conds) ∧
  (∀ e, e ∈ exercises → condition e ∈ conds →
        e ∈ recommended_exercises exercises conds).
Proof.
  unfold recommended_exercises. split.
  - apply Forall_forall. intros e He.
    apply list_elem_of_filter in He. tauto.
  - intros e He Hc. by apply list_elem_of_filter.
Qed.

(** The scenario of the specification: the exercises for the one
    condition found, each with its sets and repetitions as [SxR]. *)
Example exercises_for_knee_pain :
  table_row <$>
    recommended_exercises Sample.exercises {[ "patellar_tendinopathy" ]} =
  [["Decline squat"; "Slow eccentric squat."; "3x15"; "Daily"]].
Proof. reflexivity. Qed.

(** ** The report step and the document *)

Section tables.
Variables (o : iteration) (s : Session).

Lemma names_of_exercise_data recommended :
  Name <$> exercise_data s recommended = exercise_name <$> recommended.
Proof.
  unfold exercise_data. rewrite <- list_fmap_compose. done.
Qed.

Lemma document_exercise_names_app doc doc' :
  document_exercise_names (doc ++ doc') =
    document_exercise_names doc ++ document_exercise_names doc'.
Proof. unfold document_exercise_names. apply bind_app. Qed.

Lemma document_exercise_names_paragraphs (f : string → string) sty l :
  document_exercise_names ((λ x, Paragraph (f x) sty) <$> l) = [].
Proof. induction l as [|x l IH]; [done | apply IH]. Qed.

Lemma names_of_failed_tests_section test_results :
  document_exercise_names (failed_tests_section test_results) = [].
Proof.
  unfold failed_tests_section. rewrite !document_exercise_names_app.
  destruct (failed_tests test_results) as [|n names]; [done|].
  by rewrite (document_exercise_names_paragraphs (λ x, "- " +:+ x)).
Qed.

Lemma names_of_diagnostic_section conds :
  document_exercise_names (diagnostic_section o conds) = [].
Proof.
  unfold diagnostic_section. rewrite !document_exercise_names_app.
  destruct (decide (conds ≠ ∅)); [|done].
  by rewrite (document_exercise_names_paragraphs condition_label).
Qed.

Lemma names_of_training_advice_section recommended :
  document_exercise_names (training_advice_section recommended) =
    exercise_name <$> recommended.
Proof.
  unfold training_advice_section.
  destruct recommended as [|e l]; [done|].
  unfold document_exercise_names. simpl. rewrite app_nil_r. f_equal.
  induction l as [|e' l IH]; [done | simpl; by f_equal].
Qed.

Lemma names_of_generate_pdf test_results conds recommended :
  document_exercise_names (generate_pdf o test_results conds recommended) =
    exercise_name <$> recommended.
Proof.
  unfold generate_pdf. rewrite !document_exercise_names_app.
  rewrite names_of_failed_tests_section, names_of_diagnostic_section,
    names_of_training_advice_section.
  done.
Qed.

(** The Diagnostic section is a contiguous part of the document. *)
Lemma generate_pdf_diagnostic_section test_results conds recommended :
  ∃ before after,
    generate_pdf o test_results conds recommended =
      before ++ diagnostic_section o conds ++ after.
Proof.
  unfold generate_pdf. eexists _, _.
  rewrite (assoc_L (++) _ (failed_tests_section test_results)). reflexivity.
Qed.

Lemma diagnostic_section_empty :
  diagnostic_section o ∅ =
    [Paragraph "Diagnostic" Heading2; Spacer 1 12;
     Paragraph "No specific conditions identified." Normal; Spacer 1 24].
Proof.
  unfold diagnostic_section. by rewrite decide_False by (by intros []).
Qed.

(** The widgets a run of [report] adds to the page. *)
Lemma run_condition_lines (l : list string) out :
  foldr (λ c k, emit (st_write (condition_label c));; k) (mret ()) l out =
    (inr (), out ++ (st_write <$> (condition_label <$> l))).
Proof.
  revert out. induction l as [|c l IH]; intros out; simpl.
  - by rewrite run_ret, app_nil_r.
  - rewrite run_emit_bind, IH, <- app_assoc. done.
Qed.

Lemma run_report exercises test_results rows conds :
  find_conditions test_results rows = inr conds →
  conds ≠ ∅ →
  run (report o s exercises test_results rows) =
    (inr (),
     [st_header "Diagnostic";
      st_write "Based on your symptoms, you may have the following conditions:"]
     ++ (st_write <$> (condition_label <$> iter o conds)) ++
     [st_header "Your Rehabilitation Plan";
      st_write "Here are the recommended exercises:";
      st_write_table
        (exercise_data s (recommended_exercises exercises conds));
      st_download_button "Download Report as PDF"
        (generate_pdf o test_results conds
           (recommended_exercises exercises conds))
        "rehabilitation_report.pdf" "application/pdf"]).
Proof.
  intros Hconds Hne. unfold run, report.
  rewrite run_emit_bind, run_lift_bind, Hconds, decide_True by done.
  rewrite run_emit_bind, run_bind, run_condition_lines.
  rewrite !run_emit_bind. unfold emit.
  by rewrite <- !app_assoc.
Qed.

Lemma run_report_empty exercises test_results rows :
  find_conditions test_results rows = inr ∅ →
  run (report o s exercises test_results rows) =
    (inr (),
     [st_header "Diagnostic";
      st_write "No specific conditions identified. Please consult a healthcare professional."]).
Proof.
  intros Hconds. unfold run, report.
  rewrite run_emit_bind, run_lift_bind, Hconds.
  by rewrite decide_False by (by intros []).
Qed.

Lemma run_report_raises exercises test_results rows e :
  find_conditions test_results rows = inl e →
  run (report o s exercises test_results rows) =
    (inl e, [st_header "Diagnostic"]).
Proof.
  intros Hconds. unfold run, report.
  by rewrite run_emit_bind, run_lift_bind, Hconds.
Qed.

Lemma screen_exercise_names_app out out' :
  screen_exercise_names (out ++ out') =
    screen_exercise_names out ++ screen_exercise_names out'.
Proof. unfold screen_exercise_names. apply bind_app. Qed.

Lemma download_exercise_names_app out out' :
  download_exercise_names (out ++ out') =
    download_exercise_names out ++ download_exercise_names out'.
Proof. unfold download_exercise_names. apply bind_app. Qed.

Lemma screen_exercise_names_cons w out :
  screen_exercise_names (w :: out) =
    match w with
    | st_write_table rows => Name <$> rows
    | _ => []
    end ++ screen_exercise_names out.
Proof. reflexivity. Qed.

Lemma download_exercise_names_cons w out :
  download_exercise_names (w :: out) =
    match w with
    | st_download_button _ doc _ _ => document_exercise_names doc
    | _ => []
    end ++ download_exercise_names out.
Proof. reflexivity. Qed.

Lemma no_tables_in_lines (l : list string) :
  screen_exercise_names (st_write <$> l) = [] ∧
  download_exercise_names (st_write <$> l) = [].
Proof. induction l as [|c l IH]; [done | apply IH]. Qed.

(** Both tables of a run of [report] list the recommended exercises,
    when the run gets that far; otherwise there is neither table. *)
Lemma names_of_report exercises test_results rows :
  let out := (run (report o s exercises test_results rows)).2 in
  screen_exercise_names out = download_exercise_names out ∧
  ∀ conds, find_conditions test_results rows = inr conds → conds ≠ ∅ →
    screen_exercise_names out =
      exercise_name <$> recommended_exercises exercises conds.
Proof.
  destruct (find_conditions test_results rows) as [e|conds] eqn:Hconds.
  - rewrite (run_report_raises _ _ _ e Hconds). by split.
  - destruct (decide (conds = ∅)) as [->|Hne].
    + rewrite (run_report_empty _ _ _ Hconds). simpl. split; [done|].
      intros conds [= <-]. done.
    + rewrite (run_report _ _ _ conds Hconds Hne). simpl.
      rewrite !screen_exercise_names_app, !download_exercise_names_app.
      destruct (no_tables_in_lines (condition_label <$> iter o conds))
        as [-> ->].
      rewrite !screen_exercise_names_cons, !download_exercise_names_cons.
      cbv beta iota.
      rewrite names_of_generate_pdf, names_of_exercise_data. simpl.
      rewrite !app_nil_r.
      split; [done|]. by intros conds' [= <-] _.
Qed.
End tables.

(** C4.  When every relevant test is answered false, the loop returns
    the empty set; the report step then shows, under the Diagnostic
    header, only the sentence that no specific conditions were
    identified, and [generate_pdf] applied to the empty set renders the
    Diagnostic section of the document as the corresponding fallback
    paragraph. *)
Theorem all_false_gives_fallback (o : iteration) (s : Session)
    (exercises recommended : list Exercise)
    (test_results : PyDict.t bool) (rows : list Test) :
  (∀ t, t ∈ rows → PyDict.getitem test_results (test_name t) = inr false) →
  find_conditions test_results rows = inr ∅ ∧
  run (report o s exercises test_results rows) =
    (inr (),
     [st_header "Diagnostic";
      st_write "No specific conditions identified. Please consult a healthcare professional."]) ∧
  ∃ before after,
    generate_pdf o test_results ∅ recommended =
      before ++
      [Paragraph "Diagnostic" Heading2; Spacer 1 12;
       Paragraph "No specific conditions identified." Normal; Spacer 1 24] ++
      after.
Proof.
  intros Hfalse.
  assert (find_conditions test_results rows = inr ∅) as Hconds.
  { rewrite find_conditions_answered.
    - f_equal. apply set_eq. intros c.
      rewrite elem_of_positive_conditions. split; [|set_solver].
      intros (t & Ht & Hb & _). rewrite (Hfalse t Ht) in Hb. congruence.
    - apply Forall_forall. intros t Ht. exists false.
      by apply getitem_inr, Hfalse. }
  split_and!; [done | by apply run_report_empty |].
  rewrite <- (diagnostic_section_empty o).
  apply generate_pdf_diagnostic_section.
Qed.

Lemma all_false_gives_fallback_witness :
  find_conditions Sample.none_failed Sample.tests = inr ∅ ∧
  Paragraph "No specific conditions identified." Normal ∈
    generate_pdf elements_iteration Sample.none_failed ∅ [].
Proof.
  destruct (all_false_gives_fallback elements_iteration (Sample.session ∅)
              Sample.exercises [] Sample.none_failed Sample.tests)
    as (Hconds & _ & before & after & Hdoc).
  - intros t Ht.
    apply Forall_forall with (x := t) (l := Sample.tests); [|done].
    repeat constructor.
  - split; [done|]. rewrite Hdoc. set_solver.
Defined.

(** C5.  The loop does not depend on the order of the relevant tests:
    on a permutation of the sequence it returns the same set, or it
    raises on both when an answer is missing. *)
Theorem find_conditions_permutation (test_results : PyDict.t bool)
    (rows rows' : list Test) :
  rows ≡ₚ rows' →
  match find_conditions test_results rows, find_conditions test_results rows' with
  | inr conds, inr conds' => conds = conds'
  | inl _, inl _ => True
  | _, _ => False
  end.
Proof.
  intros Hperm.
  destruct (decide (Forall (answered test_results) rows)) as [Hall|Hnot].
  - rewrite !find_conditions_answered by (by rewrite <- ?Hperm).
    apply set_eq. intros c. rewrite !elem_of_positive_conditions.
    by setoid_rewrite Hperm.
  - unfold find_conditions.
    destruct (find_conditions_from_unanswered test_results rows ∅ Hnot)
      as [key ->].
    destruct (find_conditions_from_unanswered test_results rows' ∅)
      as [key' ->]; [by rewrite <- Hperm | done].
Qed.

Lemma find_conditions_permutation_witness :
  find_conditions Sample.one_failed [Sample.step_down; Sample.squat] =
  find_conditions Sample.one_failed [Sample.squat; Sample.step_down].
Proof.
  pose proof (find_conditions_permutation Sample.one_failed
                [Sample.step_down; Sample.squat]
                [Sample.squat; Sample.step_down] (perm_swap _ _ _)) as H.
  rewrite !find_conditions_answered in *
    by (repeat constructor; vm_compute; eauto).
  by f_equal.
Defined.

(** ** The two exercise tables *)



(** ** Step 1: the body part taken from the query string *)

Lemma elem_of_unique_from seen l x :
  x ∈ unique_from seen l ↔ x ∈ l ∧ x ∉ seen.
Proof.
  revert seen. induction l as [|y l IH]; intros seen; simpl.
  - set_solver.
  - destruct (decide (y ∈ seen)) as [Hin|Hout].
    + rewrite IH. set_solver.
    + rewrite elem_of_cons, IH. split.
      * intros [->|[Hx Hseen]]; [set_solver|]. set_solver.
      * intros [Hx Hseen]. destruct (decide (x = y)) as [->|Hne]; [by left|].
        right. set_solver.
Qed.

Lemma elem_of_unique l x : x ∈ unique l ↔ x ∈ l.
Proof. unfold unique. rewrite elem_of_unique_from. set_solver. Qed.

Lemma unique_cons x l : unique (x :: l) = x :: unique_from [x] l.
Proof.
  unfold unique. cbn [unique_from].
  destruct (decide (x ∈ [])) as [Hin|_]; [by apply elem_of_nil in Hin | done].
Qed.

Lemma NoDup_unique_from seen l : NoDup (unique_from seen l).
Proof.
  revert seen. induction l as [|y l IH]; intros seen; simpl.
  - constructor.
  - destruct (decide (y ∈ seen)); [apply IH|].
    constructor; [|apply IH]. rewrite elem_of_unique_from. set_solver.
Qed.

Lemma index_of_elem x l :
  x ∈ l → ∃ i, index_of x l = inr i ∧ l !! i = Some x.
Proof.
  induction l as [|y l IH]; [set_solver|]. intros Hx. simpl.
  destruct (decide (y = x)) as [->|Hne].
  - by exists 0%nat.
  - destruct IH as (i & -> & Hi); [set_solver|]. by exists (S i).
Qed.

Lemma run_select_invalid (s : Session) p0 ps v vs out :
  query_params s !! "body_part" = Some (v :: vs) →
  v ∉ p0 :: ps →
  select_body_part s (p0 :: ps) out =
    (inr (selectbox_value s (p0 :: ps) 0),
     out ++
     [st_warning ("Invalid body part '" +:+ v +:+
                  "' specified in URL. Defaulting to '" +:+ p0 +:+ "'.");
      st_selectbox "Which part of your body is experiencing pain?"
        (p0 :: ps) 0]).
Proof.
  intros Hparam Hbad. unfold select_body_part.
  rewrite run_lift_bind. cbn [item0]. rewrite Hparam. cbn [default].
  rewrite run_lift_bind. unfold id. cbn [item0].
  rewrite run_bind, decide_True by done.
  rewrite run_lift_bind, run_emit_bind. unfold lift at 1.
  rewrite run_lift_bind. cbn [index_of]. rewrite decide_True by done.
  rewrite run_emit_bind, run_ret. by rewrite <- app_assoc.
Qed.

Lemma run_select_valid (s : Session) parts v vs i out :
  query_params s !! "body_part" = Some (v :: vs) →
  v ∈ parts → index_of v parts = inr i →
  select_body_part s parts out =
    (inr (selectbox_value s parts i),
     out ++
     [st_selectbox "Which part of your body is experiencing pain?" parts i]).
Proof.
  intros Hparam Hgood Hindex. unfold select_body_part.
  destruct parts as [|p0 ps]; [by apply elem_of_nil in Hgood|].
  rewrite run_lift_bind. cbn [item0]. rewrite Hparam. cbn [default].
  rewrite run_lift_bind. unfold id. cbn [item0].
  rewrite run_bind, decide_False by (by intros Hc; apply Hc).
  rewrite run_ret, run_lift_bind, Hindex, run_emit_bind, run_ret. done.
Qed.

(** Without a [body_part] parameter the first body part is the default. *)
Lemma run_select_default (s : Session) p0 ps out :
  query_params s !! "body_part" = None →
  select_body_part s (p0 :: ps) out =
    (inr (selectbox_value s (p0 :: ps) 0),
     out ++
     [st_selectbox "Which part of your body is experiencing pain?"
        (p0 :: ps) 0]).
Proof.
  intros Hparam. unfold select_body_part.
  rewrite run_lift_bind. cbn [item0]. rewrite Hparam. cbn [default].
  rewrite run_lift_bind. cbn [item0].
  rewrite run_bind, decide_False by (intros Hc; apply Hc; by left).
  rewrite run_ret, run_lift_bind. cbn [index_of].
  rewrite decide_True by done. by rewrite run_emit_bind, run_ret.
Qed.

(** With no Symptom at all, step 1 raises before anything is offered. *)
Lemma run_select_no_symptoms (s : Session) out :
  select_body_part s (body_parts []) out = (inl IndexError, out).
Proof. reflexivity. Qed.

(** C7.  With a non-empty symptoms table and a [body_part] parameter:
    a value that is not the name of a Symptom makes step 1 show a
    warning and offer the select box with the first Symptom of the
    table preselected, without raising; a value that names a Symptom is
    preselected, with no warning.  The preselected option is the one
    selected as long as the user has not picked another. *)
Theorem body_part_deep_link (s : Session) (first : Symptom)
    (others : list Symptom) (v : string) (vs : list string) :
  query_params s !! "body_part" = Some (v :: vs) →
  let symptoms := first :: others in
  let parts := body_parts symptoms in
  (v ∉ symptom_name <$> symptoms →
     run (select_body_part s parts) =
       (inr (selectbox_value s parts 0),
        [st_warning ("Invalid body part '" +:+ v +:+
                     "' specified in URL. Defaulting to '" +:+
                     symptom_name first +:+ "'.");
         st_selectbox "Which part of your body is experiencing pain?"
           parts 0]) ∧
     parts !! 0%nat = Some (symptom_name first) ∧
     (selectbox_state s = None →
        selectbox_value s parts 0 = Some (symptom_name first))) ∧
  (v ∈ symptom_name <$> symptoms →
     ∃ i, parts !! i = Some v ∧
       run (select_body_part s parts) =
         (inr (selectbox_value s parts i),
          [st_selectbox "Which part of your body is experiencing pain?"
             parts i]) ∧
       (selectbox_state s = None → selectbox_value s parts i = Some v)).
Proof.
  intros Hparam symptoms parts.
  assert (parts = symptom_name first :: unique_from [symptom_name first]
                                          (symptom_name <$> others)) as Hparts.
  { unfold parts, body_parts, symptoms. rewrite fmap_cons. apply unique_cons. }
  assert (∀ x, x ∈ parts ↔ x ∈ symptom_name <$> symptoms) as Hmem.
  { intros x. apply elem_of_unique. }
  split.
  - intros Hbad. rewrite <- Hmem in Hbad. rewrite Hparts in *. split_and!.
    + unfold run. by rewrite (run_select_invalid s _ _ v vs).
    + done.
    + intros Hnone. unfold selectbox_value. by rewrite Hnone.
  - intros Hgood. rewrite <- Hmem in Hgood.
    destruct (index_of_elem v parts Hgood) as (i & Hindex & Hi).
    exists i. split_and!; [done | |].
    + unfold run. by rewrite (run_select_valid s parts v vs i).
    + intros Hnone. unfold selectbox_value. by rewrite Hnone.
Qed.

Lemma body_part_deep_link_witness :
  run (select_body_part
         (Sample.session {[ "body_part" := ["NotARealPart"] ]})
         (body_parts Sample.symptoms)) =
    (inr (Some "Knee Pain"),
     [st_warning "Invalid body part 'NotARealPart' specified in URL. Defaulting to 'Knee Pain'.";
      st_selectbox "Which part of your body is experiencing pain?"
        ["Knee Pain"; "Back Pain"] 0]) ∧
  ∃ i, body_parts Sample.symptoms !! i = Some "Back Pain" ∧
       run (select_body_part
              (Sample.session {[ "body_part" := ["Back Pain"] ]})
              (body_parts Sample.symptoms)) =
         (inr (Some "Back Pain"),
          [st_selectbox "Which part of your body is experiencing pain?"
             ["Knee Pain"; "Back Pain"] i]).
Proof.
  split.
  - destruct (body_part_deep_link
                (Sample.session {[ "body_part" := ["NotARealPart"] ]})
                Sample.knee_pain [Sample.back_pain] "NotARealPart" [])
      as [Hbad _]; [reflexivity|].
    destruct Hbad as (Hrun & _ & _); [|exact Hrun].
    vm_compute. intros Hin. by repeat (apply elem_of_cons in Hin as [?|Hin]);
      [| |apply elem_of_nil in Hin].
  - destruct (body_part_deep_link
                (Sample.session {[ "body_part" := ["Back Pain"] ]})
                Sample.knee_pain [Sample.back_pain] "Back Pain" [])
      as [_ Hgood]; [reflexivity|].
    destruct Hgood as (i & Hi & Hrun & Hsel).
    + apply elem_of_cons. right. apply elem_of_cons. by left.
    + exists i. split; [exact Hi|]. unfold Sample.symptoms.
      rewrite Hrun, Hsel; done.
Defined.

(** ** The condition labels *)





(** On identifiers without a capital letter after the first character
    the label is the one the specification describes. *)
Lemma lower_replaced_unchanged s :
  (∀ i ch, String.get i s = Some ch → PyStr.is_upper ch = false) →
  PyStr.lower (PyStr.replace_char "_" " " s) = PyStr.replace_char "_" " " s.
Proof.
  induction s as [|c s IH]; intros Hlow; [done|].
  unfold PyStr.lower, PyStr.replace_char in *. simpl. f_equal.
  - destruct (decide (c = "_"%char)) as [->|Hne]; [done|].
    unfold PyStr.lower_char. by rewrite (Hlow 0%nat c).
  - apply IH. intros i ch Hget. by apply (Hlow (S i)).
Qed.

Lemma condition_label_as_specified c :
  (∀ i ch, String.get (S i) c = Some ch → PyStr.is_upper ch = false) →
  condition_label c = "- " +:+ spec_condition_text c.
Proof.
  intros Hlow. unfold condition_label, spec_condition_text. f_equal.
  destruct c as [|c0 c]; [done|].
  change (PyStr.replace_char "_" " " (String c0 c))
    with (String (if decide (c0 = "_"%char) then " "%char else c0)
            (PyStr.replace_char "_" " " c)).
  cbn [PyStr.capitalize]. f_equal. by apply lower_replaced_unchanged.
Qed.



Example condition_label_patellar :
  condition_label "patellar_tendinopathy" = "- Patellar tendinopathy".
Proof. reflexivity. Qed.

(** ** The test mode flag *)

(** C9.  The flag is true exactly when the first value of the
    [test_mode] parameter is the string [true]; any other first value,
    such as [True] or [1], and an absent parameter give false.  When
    the flag is true, step 3 runs the report whatever the button says;
    when it is false, step 3 runs the report only if the confirmation
    button was clicked. *)
Theorem test_mode_only_for_true :
  (∀ params : gmap string (list string),
     test_mode params = inr true ↔
     ∃ vs, params !! "test_mode" = Some ("true" :: vs)) ∧
  (∀ (params : gmap string (list string)) v vs,
     params !! "test_mode" = Some (v :: vs) →
     test_mode params = inr (bool_decide (v = "true"))) ∧
  (∀ params : gmap string (list string),
     params !! "test_mode" = None → test_mode params = inr false) ∧
  test_mode {[ "test_mode" := ["True"] ]} = inr false ∧
  test_mode {[ "test_mode" := ["1"] ]} = inr false ∧
  (∀ o s exercises test_results rows out,
     step3 o s exercises false test_results rows out =
       if button_clicked s
       then report o s exercises test_results rows
              (out ++ [st_button "Get Diagnostic and Generate Exercise Plan"])
       else (inr (),
             out ++ [st_button "Get Diagnostic and Generate Exercise Plan"])) ∧
  (∀ o s exercises test_results rows out,
     step3 o s exercises true test_results rows out =
       report o s exercises test_results rows
         (out ++ [st_button "Get Diagnostic and Generate Exercise Plan"])).
Proof.
  split_and!.
  - intros params. unfold test_mode.
    destruct (params !! "test_mode") as [[|v vs]|]; simpl.
    + split; [done | by intros [? ?]].
    + split.
      * intros [= Hv]. apply bool_decide_eq_true in Hv as ->. eauto.
      * intros [vs' [= -> _]]. done.
    + split; [done | by intros [? ?]].
  - intros params v vs Hv. unfold test_mode. by rewrite Hv.
  - intros params Hv. unfold test_mode. by rewrite Hv.
  - reflexivity.
  - reflexivity.
  - intros. unfold step3. rewrite run_emit_bind, orb_false_r.
    by destruct (button_clicked s).
  - intros. unfold step3. by rewrite run_emit_bind, orb_true_r.
Qed.

(** The whole page on the knee pain scenario, in test mode with the
    squat preselected as failed. *)
Example main_knee_pain_test_mode :
  ∃ out,
    run (main elements_iteration Sample.symptoms Sample.tests Sample.exercises
           (Sample.session {[ "test_mode" := ["true"];
                              "failed_tests" := ["10"] ]})) = (inr (), out) ∧
    screen_exercise_names out = ["Decline squat"] ∧
    download_exercise_names out = ["Decline squat"] ∧
    st_write "- Patellar tendinopathy" ∈ out.
Proof.
  eexists. split; [vm_compute; reflexivity|].
  split_and!; [reflexivity | reflexivity | set_solver].
Qed.

(** * Further properties of the page and the document *)

(** ** Dictionaries built by subscript assignment *)

Section dict_keys.
Context {V : Type}.
Implicit Types (d : PyDict.t V) (k : string) (v : V).

Lemma keys_setitem d k v :
  (PyDict.setitem k v d).*1 = if decide (k ∈ d.*1) then d.*1 else d.*1 ++ [k].
Proof.
  induction d as [|[k' v'] d IH].
  - by destruct (decide (k ∈ ([] : PyDict.t V).*1))
      as [Hin%elem_of_nil|].
  - cbn [PyDict.setitem].
    destruct (decide (k' = k)) as [->|Hne]; rewrite !fmap_cons; cbn [fst].
    + by rewrite decide_True by (by left).
    + rewrite IH. destruct (decide (k ∈ d.*1)) as [Hin|Hout].
      * by rewrite decide_True by (by right).
      * rewrite decide_False; [done|].
        intros [?|?]%elem_of_cons; congruence.
Qed.

Lemma NoDup_keys_setitem d k v :
  NoDup d.*1 → NoDup (PyDict.setitem k v d).*1.
Proof.
  intros Hd. rewrite keys_setitem. destruct (decide (k ∈ d.*1)); [done|].
  apply NoDup_app. split_and!; [done | | apply NoDup_singleton].
  intros x Hx ->%list_elem_of_singleton. done.
Qed.

Lemma setitem_fresh d k v :
  k ∉ d.*1 → PyDict.setitem k v d = d ++ [(k, v)].
Proof.
  induction d as [|[k' v'] d IH]; [done|]. simpl. intros Hk.
  rewrite decide_False by (intros ->; apply Hk; by left).
  f_equal. apply IH. intros Hin. apply Hk. by right.
Qed.

Lemma find_Some_elem_of d k v : PyDict.find k d = Some v → (k, v) ∈ d.
Proof.
  induction d as [|[k' v'] d IH]; [done|]. simpl.
  destruct (decide (k' = k)) as [->|Hne].
  - intros [= ->]. by left.
  - intros Hf. right. by apply IH.
Qed.

Lemma elem_of_find_Some d k v :
  NoDup d.*1 → (k, v) ∈ d → PyDict.find k d = Some v.
Proof.
  induction d as [|[k' v'] d IH]; simpl.
  - intros _ Hin. by apply elem_of_nil in Hin.
  - intros [Hk' Hd]%NoDup_cons [[= -> ->]|Hin]%elem_of_cons.
    + by rewrite decide_True.
    + rewrite decide_False; [by apply IH|].
      intros ->. apply Hk'. apply list_elem_of_fmap. by exists (k, v).
Qed.

Lemma find_is_Some_keys d k : is_Some (PyDict.find k d) ↔ k ∈ d.*1.
Proof.
  induction d as [|[k' v'] d IH]; simpl.
  - split; [by intros [? ?] | by intros ?%elem_of_nil].
  - destruct (decide (k' = k)) as [->|Hne].
    + split; [by left | eauto].
    + rewrite IH, elem_of_cons. naive_solver.
Qed.
End dict_keys.

(** ** Step 2: the answers stored *)

Section step2.
Variables (s : Session) (failed_test_ids : list string).

Lemma run_ask_tests_from rows :
  ∀ test_results out,
    ask_tests s failed_test_ids rows test_results out =
      (inr (stored_answers_from s failed_test_ids test_results rows),
       out ++ (rows ≫= test_widgets failed_test_ids)).
Proof.
  induction rows as [|t rows IH]; intros test_results out.
  - simpl. by rewrite run_ret, app_nil_r.
  - cbn [ask_tests]. rewrite !run_emit_bind, IH.
    unfold stored_answers_from. cbn [foldl]. f_equal.
    cbn [mbind list_bind]. unfold test_widgets at 2.
    by rewrite <- !app_assoc.
Qed.

Lemma stored_keys_NoDup rows :
  ∀ test_results,
    NoDup test_results.*1 →
    NoDup (stored_answers_from s failed_test_ids test_results rows).*1.
Proof.
  induction rows as [|t rows IH]; intros test_results Hd; [done|].
  apply IH. by apply NoDup_keys_setitem.
Qed.

Lemma stored_keys rows :
  ∀ test_results k,
    k ∈ (stored_answers_from s failed_test_ids test_results rows).*1 ↔
    k ∈ test_results.*1 ∨ k ∈ test_name <$> rows.
Proof.
  induction rows as [|t rows IH]; intros test_results k.
  - simpl. split; [by left | by intros [?|?%elem_of_nil]].
  - unfold stored_answers_from. cbn [foldl]. fold (stored_answers_from s
      failed_test_ids (PyDict.setitem (test_name t)
                         (answer s failed_test_ids t) test_results) rows).
    rewrite IH, keys_setitem, fmap_cons, elem_of_cons.
    destruct (decide (test_name t ∈ test_results.*1)) as [Hin|Hout].
    + split; [tauto|]. intros [?|[->|?]]; tauto.
    + rewrite elem_of_app, list_elem_of_singleton. tauto.
Qed.

Lemma stored_distinct rows :
  NoDup (test_name <$> rows) →
  ∀ test_results,
    (∀ t, t ∈ rows → test_name t ∉ test_results.*1) →
    stored_answers_from s failed_test_ids test_results rows =
      test_results ++
      ((λ t, (test_name t, answer s failed_test_ids t)) <$> rows).
Proof.
  induction rows as [|t rows IH]; intros Hnames test_results Hfresh.
  - simpl. by rewrite app_nil_r.
  - rewrite fmap_cons in Hnames. apply NoDup_cons in Hnames as [Ht Hrows].
    unfold stored_answers_from. cbn [foldl]. fold (stored_answers_from s
      failed_test_ids (PyDict.setitem (test_name t)
                         (answer s failed_test_ids t) test_results) rows).
    rewrite setitem_fresh by (apply Hfresh; by left).
    rewrite IH; [by rewrite <- app_assoc | done |].
    intros t' Ht'. rewrite fmap_app, elem_of_app.
    intros [Hin|Hin].
    + apply (Hfresh t'); [by right | done].
    + simpl in Hin. apply list_elem_of_singleton in Hin.
      apply Ht. rewrite <- Hin. apply list_elem_of_fmap. by exists t'.
Qed.
End step2.

(** ** The tests of a symptom and the body parts on offer *)

(** X1.  Line 122 keeps exactly the tests of the given symptom, in the
    order of the tests table. *)
Theorem relevant_tests_of_symptom (tests : list Test) (sid : Z) :
  (∀ t, t ∈ relevant_tests tests sid ↔ t ∈ tests ∧ test_symptom_id t = sid) ∧
  relevant_tests tests sid `sublist_of` tests.
Proof.
  unfold relevant_tests. split.
  - intros t. rewrite list_elem_of_filter. tauto.
  - apply sublist_filter.
Qed.

Lemma unique_from_sublist seen l : unique_from seen l `sublist_of` l.
Proof.
  revert seen. induction l as [|x l IH]; intros seen; simpl; [done|].
  destruct (decide (x ∈ seen)).
  - apply sublist_cons, IH.
  - apply sublist_skip, IH.
Qed.

(** Of two options, the one listed first is the one that appears first
    in the list of names: it occurs there before any occurrence of the
    other. *)
Lemma unique_from_order seen l :
  ∀ i j x y,
    unique_from seen l !! i = Some x →
    unique_from seen l !! j = Some y →
    (i < j)%nat →
    ∃ k, l !! k = Some x ∧ ∀ k', (k' ≤ k)%nat → l !! k' ≠ Some y.
Proof.
  revert seen. induction l as [|a l IH]; intros seen i j x y; [done|].
  cbn [unique_from]. destruct (decide (a ∈ seen)) as [Hseen|Hnew].
  - intros Hi Hj Hlt.
    assert (a ≠ y) as Hay.
    { intros ->. apply list_elem_of_lookup_2, elem_of_unique_from in Hj.
      tauto. }
    destruct (IH seen i j x y Hi Hj Hlt) as (k & Hk & Hbefore).
    exists (S k). split; [done|].
    intros [|k'] Hle; simpl; [congruence | apply Hbefore; lia].
  - destruct j as [|j]; [lia|]. cbn [lookup list_lookup]. intros Hi Hj Hlt.
    assert (a ≠ y) as Hay.
    { intros ->. apply list_elem_of_lookup_2, elem_of_unique_from in Hj.
      destruct Hj as [_ Hj]. apply Hj. by left. }
    destruct i as [|i].
    + injection Hi as ->. exists 0%nat. split; [done|].
      intros [|k'] Hle; simpl; [congruence | lia].
    + destruct (IH (a :: seen) i j x y Hi Hj) as (k & Hk & Hbefore); [lia|].
      exists (S k). split; [done|].
      intros [|k'] Hle; simpl; [congruence | apply Hbefore; lia].
Qed.

(** X2.  The select box offers every symptom name once, whatever the
    table repeats, in the order of first appearance in the table: of
    two options, the one listed first occurs in the table before any
    occurrence of the other.  Its first option is the name in the
    first row. *)
Theorem body_parts_distinct (symptoms : list Symptom) :
  NoDup (body_parts symptoms) ∧
  (∀ x, x ∈ body_parts symptoms ↔
        ∃ r, r ∈ symptoms ∧ symptom_name r = x) ∧
  body_parts symptoms `sublist_of` (symptom_name <$> symptoms) ∧
  head (body_parts symptoms) = symptom_name <$> head symptoms ∧
  (∀ i j x y,
     body_parts symptoms !! i = Some x →
     body_parts symptoms !! j = Some y →
     (i < j)%nat →
     ∃ k, (symptom_name <$> symptoms) !! k = Some x ∧
          ∀ k', (k' ≤ k)%nat → (symptom_name <$> symptoms) !! k' ≠ Some y).
Proof.
  unfold body_parts. split_and!.
  - apply NoDup_unique_from.
  - intros x. rewrite elem_of_unique, list_elem_of_fmap. naive_solver.
  - apply unique_from_sublist.
  - destruct symptoms as [|r rest]; [done|].
    by rewrite fmap_cons, unique_cons.
  - apply unique_from_order.
Qed.

(** A table that repeats names out of order. *)
Example body_parts_first_appearance :
  unique ["a"; "b"; "c"; "b"; "c"] = ["a"; "b"; "c"].
Proof. reflexivity. Qed.

(** X3.  Without a [body_part] parameter, and with a non-empty symptoms
    table, step 1 shows no warning and preselects the first symptom. *)
Theorem no_body_part_parameter (s : Session) (first : Symptom)
    (others : list Symptom) :
  query_params s !! "body_part" = None →
  let parts := body_parts (first :: others) in
  run (select_body_part s parts) =
    (inr (selectbox_value s parts 0),
     [st_selectbox "Which part of your body is experiencing pain?" parts 0]) ∧
  parts !! 0%nat = Some (symptom_name first).
Proof.
  intros Hparam parts.
  assert (parts = symptom_name first :: unique_from [symptom_name first]
                                          (symptom_name <$> others)) as ->.
  { unfold parts, body_parts. rewrite fmap_cons. apply unique_cons. }
  split; [|done]. unfold run. by rewrite run_select_default.
Qed.

Lemma no_body_part_parameter_witness :
  run (select_body_part (Sample.session ∅) (body_parts Sample.symptoms)) =
    (inr (Some "Knee Pain"),
     [st_selectbox "Which part of your body is experiencing pain?"
        ["Knee Pain"; "Back Pain"] 0]).
Proof.
  destruct (no_body_part_parameter (Sample.session ∅)
              Sample.knee_pain [Sample.back_pain]) as [Hrun _];
    [reflexivity | exact Hrun].
Defined.

(** X4.  For a body part that is on offer, the lookup of its symptom id
    at line 116 does not raise, and gives the id of the first row of
    the symptoms table with that name; a later row with the same name
    is never used. *)
Theorem symptom_id_of_selected (symptoms : list Symptom) (selected : string) :
  selected ∈ body_parts symptoms →
  ∃ before r after,
    symptoms = before ++ r :: after ∧
    symptom_name r = selected ∧
    Forall (λ r', symptom_name r' ≠ selected) before ∧
    item0 (symptom_id <$>
             filter (λ r, symptom_name r = selected) symptoms) =
      inr (symptom_id r).
Proof.
  unfold body_parts. rewrite elem_of_unique.
  induction symptoms as [|r0 symptoms IH]; [by intros ?%elem_of_nil|].
  rewrite fmap_cons. intros Hin.
  destruct (decide (symptom_name r0 = selected)) as [Heq|Hne].
  - exists [], r0, symptoms. split_and!; [done | done | constructor |].
    by rewrite filter_cons_True.
  - apply elem_of_cons in Hin as [Hin|Hin]; [congruence|].
    destruct (IH Hin) as (before & r & after & -> & Hr & Hbefore & Hitem).
    exists (r0 :: before), r, after. split_and!; [done | done | |].
    + by constructor.
    + by rewrite filter_cons_False.
Qed.

Lemma symptom_id_of_selected_witness :
  ∃ r, symptom_name r = "Back Pain" ∧
       item0 (symptom_id <$>
                filter (λ r, symptom_name r = "Back Pain") Sample.symptoms) =
         inr (symptom_id r).
Proof.
  destruct (symptom_id_of_selected Sample.symptoms "Back Pain")
    as (before & r & after & Hsplit & Hname & Hbefore & Hitem).
  - apply elem_of_cons. right. apply elem_of_cons. by left.
  - exists r. split; [exact Hname | exact Hitem].
Defined.

(** ** Step 2 and the Failed Tests section *)

(** X5.  When the relevant tests have distinct names, step 2 leaves a
    dictionary with one entry per test, in the order the tests are
    shown, holding the state of the test's check box; a box the user
    has not touched is checked exactly when the decimal test id is
    among the [failed_tests] values of the query string. *)
Theorem step2_stores_answers (s : Session) (failed_test_ids : list string)
    (rows : list Test) (out : list Widget) :
  NoDup (test_name <$> rows) →
  ask_tests s failed_test_ids rows [] out =
    (inr ((λ t, (test_name t, answer s failed_test_ids t)) <$> rows),
     out ++ (rows ≫= test_widgets failed_test_ids)) ∧
  (∀ t, t ∈ rows →
     PyDict.getitem
       ((λ t, (test_name t, answer s failed_test_ids t)) <$> rows)
       (test_name t) = inr (answer s failed_test_ids t)) ∧
  (∀ t, checkbox_state s (test_name t) = None →
     answer s failed_test_ids t =
       bool_decide (pretty (test_id t) ∈ failed_test_ids)).
Proof.
  intros Hnames.
  assert (stored_answers_from s failed_test_ids [] rows =
          (λ t, (test_name t, answer s failed_test_ids t)) <$> rows) as Hstored.
  { rewrite stored_distinct; [done | done |].
    intros t _ Hin. by apply elem_of_nil in Hin. }
  split_and!.
  - by rewrite run_ask_tests_from, Hstored.
  - intros t Ht. apply getitem_inr, elem_of_find_Some.
    + rewrite <- list_fmap_compose. exact Hnames.
    + apply list_elem_of_fmap. by exists t.
  - intros t Hstate. unfold answer, checkbox_value. by rewrite Hstate.
Qed.

Lemma step2_stores_answers_witness :
  ask_tests (Sample.session ∅) ["10"] Sample.tests [] [] =
    (inr Sample.one_failed, Sample.tests ≫= test_widgets ["10"]).
Proof.
  destruct (step2_stores_answers (Sample.session ∅) ["10"] Sample.tests [])
    as (Hrun & _ & _).
  - vm_compute. repeat constructor; set_solver.
  - exact Hrun.
Defined.

(** X6.  For a dictionary (its keys are distinct), the Failed Tests
    section of the document lists a name if and only if its entry is
    true, and shows the sentence that no tests were failed exactly when
    no entry is true. *)
Theorem failed_tests_listed (test_results : PyDict.t bool) :
  NoDup test_results.*1 →
  (∀ name, name ∈ failed_tests test_results ↔
           PyDict.getitem test_results name = inr true) ∧
  (failed_tests_section test_results =
     [Paragraph "Failed Tests" Heading2; Spacer 1 12;
      Paragraph "No tests were failed." Normal; Spacer 1 24] ↔
   ∀ name, PyDict.getitem test_results name ≠ inr true) ∧
  (failed_tests test_results ≠ [] →
   failed_tests_section test_results =
     [Paragraph "Failed Tests" Heading2; Spacer 1 12] ++
     ((λ name, Paragraph ("- " +:+ name) Normal) <$> failed_tests test_results)
     ++ [Spacer 1 24]).
Proof.
  intros Hkeys.
  assert (∀ name, name ∈ failed_tests test_results ↔
                  PyDict.getitem test_results name = inr true) as Hlisted.
  { intros name. rewrite getitem_inr. unfold failed_tests, PyDict.items.
    rewrite list_elem_of_fmap. split.
    - intros ([k v] & -> & [Hv Hin]%list_elem_of_filter). simpl in *. subst v.
      by apply elem_of_find_Some.
    - intros Hfind. exists (name, true). split; [done|].
      apply list_elem_of_filter. split; [done|].
      by apply find_Some_elem_of. }
  split_and!; [done | |].
  - unfold failed_tests_section.
    destruct (failed_tests test_results) as [|n names] eqn:Hfailed.
    + split; [|done]. intros _ name Hname. apply Hlisted in Hname.
      by apply elem_of_nil in Hname.
    + split; [discriminate|]. intros Hnone. destruct (Hnone n).
      apply Hlisted. by left.
  - unfold failed_tests_section.
    by destruct (failed_tests test_results).
Qed.

Lemma failed_tests_listed_witness :
  "Single leg squat" ∈ failed_tests Sample.one_failed ↔
  PyDict.getitem Sample.one_failed "Single leg squat" = inr true.
Proof.
  destruct (failed_tests_listed Sample.one_failed) as (Hlisted & _ & _).
  - vm_compute. repeat constructor; set_solver.
  - exact (Hlisted "Single leg squat").
Defined.

(** ** Step 3 and the document offered for download *)

Section step3.
Variables (o : iteration) (s : Session) (exercises : list Exercise).


Lemma run_step3 flag test_results rows out :
  step3 o s exercises flag test_results rows out =
    if button_clicked s || flag
    then report o s exercises test_results rows
           (out ++ [st_button "Get Diagnostic and Generate Exercise Plan"])
    else (inr (),
          out ++ [st_button "Get Diagnostic and Generate Exercise Plan"]).
Proof.
  unfold step3. rewrite run_emit_bind.
  by destruct (button_clicked s || flag).
Qed.

Lemma downloads_app out out' :
  downloads (out ++ out') = downloads out ++ downloads out'.
Proof. unfold downloads. apply omap_app. Qed.

Lemma downloads_lines (l : list string) : downloads (st_write <$> l) = [].
Proof. induction l as [|c l IH]; [done | apply IH]. Qed.

Lemma downloads_of_report test_results rows :
  downloads (run (report o s exercises test_results rows)).2 =
    match find_conditions test_results rows with
    | inr conds =>
        if decide (conds ≠ ∅)
        then [generate_pdf o test_results conds
                (recommended_exercises exercises conds)]
        else []
    | inl _ => []
    end.
Proof.
  destruct (find_conditions test_results rows) as [e|conds] eqn:Hconds.
  - by rewrite (run_report_raises _ _ _ _ _ e Hconds).
  - destruct (decide (conds ≠ ∅)) as [Hne|Hempty].
    + rewrite (run_report _ _ _ _ _ conds Hconds Hne). cbn [snd].
      rewrite !downloads_app, downloads_lines. reflexivity.
    + apply dec_stable in Hempty. subst conds.
      by rewrite (run_report_empty _ _ _ _ _ Hconds).
Qed.
End step3.



(** X8.  Every recommended exercise goes back to a failed test: when
    the loop returns, an exercise is recommended if and only if it is a
    row of the exercises table whose condition is the positive
    indication of some relevant test answered true. *)
Theorem recommended_iff_failed_test (exercises : list Exercise)
    (test_results : PyDict.t bool) (rows : list Test) (conds : gset string) :
  find_conditions test_results rows = inr conds →
  ∀ e, e ∈ recommended_exercises exercises conds ↔
       e ∈ exercises ∧
       ∃ t, t ∈ rows ∧
            PyDict.getitem test_results (test_name t) = inr true ∧
            positive_indication t = condition e.
Proof.
  intros Hconds e.
  assert (Forall (answered test_results) rows) as Hall.
  { destruct (decide (Forall (answered test_results) rows)) as [|Hnot]; [done|].
    destruct (find_conditions_from_unanswered test_results rows ∅ Hnot)
      as [key Hkey].
    unfold find_conditions in Hconds. congruence. }
  rewrite find_conditions_answered in Hconds by done.
  injection Hconds as <-.
  unfold recommended_exercises.
  rewrite list_elem_of_filter, elem_of_positive_conditions. tauto.
Qed.

Lemma recommended_iff_failed_test_witness :
  Sample.decline_squat ∈
    recommended_exercises Sample.exercises {[ "patellar_tendinopathy" ]} ↔
  Sample.decline_squat ∈ Sample.exercises ∧
  ∃ t, t ∈ Sample.tests ∧
       PyDict.getitem Sample.one_failed (test_name t) = inr true ∧
       positive_indication t = condition Sample.decline_squat.
Proof.
  apply (recommended_iff_failed_test Sample.exercises Sample.one_failed
           Sample.tests).
  rewrite find_conditions_answered
    by (repeat constructor; vm_compute; eauto).
  f_equal.
Defined.

Lemma elem_of_failed_tests (test_results : PyDict.t bool) name :
  NoDup test_results.*1 →
  name ∈ failed_tests test_results ↔ PyDict.find name test_results = Some true.
Proof.
  intros Hkeys. unfold failed_tests, PyDict.items.
  rewrite list_elem_of_fmap. split.
  - intros ([k v] & -> & [Hv Hin]%list_elem_of_filter). simpl in *. subst v.
    by apply elem_of_find_Some.
  - intros Hfind. exists (name, true). split; [done|].
    apply list_elem_of_filter. split; [done|].
    by apply find_Some_elem_of.
Qed.

Section stored.
Variables (s : Session) (failed_test_ids : list string) (rows : list Test).

Lemma stored_answers_keys_NoDup :
  NoDup (stored_answers s failed_test_ids rows).*1.
Proof. apply stored_keys_NoDup. constructor. Qed.

Lemma stored_answers_keys k :
  k ∈ (stored_answers s failed_test_ids rows).*1 ↔ k ∈ test_name <$> rows.
Proof.
  unfold stored_answers. rewrite stored_keys. split; [|by right].
  by intros [?%elem_of_nil|?].
Qed.

Lemma stored_answers_answered :
  Forall (answered (stored_answers s failed_test_ids rows)) rows.
Proof.
  apply Forall_forall. intros t Ht. unfold answered.
  apply find_is_Some_keys, stored_answers_keys, list_elem_of_fmap.
  by exists t.
Qed.

Lemma stored_conditions_empty_iff :
  list_to_set (positive_indication <$>
     positive_tests (stored_answers s failed_test_ids rows) rows)
    = (∅ : gset string) ↔
  failed_tests (stored_answers s failed_test_ids rows) = [].
Proof.
  split.
  - intros Hempty.
    destruct (failed_tests (stored_answers s failed_test_ids rows))
      as [|n names] eqn:Hfailed; [done|]. exfalso.
    assert (n ∈ failed_tests (stored_answers s failed_test_ids rows)) as Hn
      by (rewrite Hfailed; by left).
    apply elem_of_failed_tests in Hn; [|apply stored_answers_keys_NoDup].
    assert (n ∈ test_name <$> rows) as Hrow.
    { apply stored_answers_keys, find_is_Some_keys. eauto. }
    apply list_elem_of_fmap in Hrow as (t & -> & Ht).
    apply (not_elem_of_empty (C := gset string) (positive_indication t)).
    rewrite <- Hempty. apply elem_of_positive_conditions.
    exists t. by rewrite getitem_inr.
  - intros Hnone. apply set_eq. intros c. split; [|by intros ?%not_elem_of_empty].
    intros (t & Ht & Hb & _)%elem_of_positive_conditions.
    apply getitem_inr in Hb.
    apply elem_of_failed_tests in Hb; [|apply stored_answers_keys_NoDup].
    rewrite Hnone in Hb. by apply elem_of_nil in Hb.
Qed.
End stored.

(** X9.  On the page, when the relevant tests have distinct names, the
    loop runs on the answers step 2 has stored: it returns a set,
    which is empty exactly when no stored answer is true.  So a
    document offered for download lists at least one failed test and
    at least one condition; the two fallback sentences of
    [generate_pdf] for these sections are never reached from the
    page. *)
Theorem offered_report_has_failed_tests (o : iteration) (s : Session)
    (exercises : list Exercise) (failed_test_ids : list string)
    (rows : list Test) (out : list Widget) :
  NoDup (test_name <$> rows) →
  let test_results := stored_answers s failed_test_ids rows in
  (ask_tests s failed_test_ids rows [] out).1 = inr test_results ∧
  ∃ conds,
    find_conditions test_results rows = inr conds ∧
    (conds = ∅ ↔ failed_tests test_results = []) ∧
    ∀ doc, doc ∈ downloads (run (report o s exercises test_results rows)).2 →
      doc = generate_pdf o test_results conds
              (recommended_exercises exercises conds) ∧
      conds ≠ ∅ ∧ failed_tests test_results ≠ [].
Proof.
  intros _. simpl. split; [by rewrite run_ask_tests_from|].
  eexists. split; [apply find_conditions_answered, stored_answers_answered|].
  split; [apply stored_conditions_empty_iff|].
  intros doc. rewrite downloads_of_report.
  rewrite find_conditions_answered by apply stored_answers_answered.
  destruct (decide _) as [Hne|]; [|by intros ?%elem_of_nil].
  intros ->%list_elem_of_singleton. split_and!; [done | done |].
  by rewrite <- stored_conditions_empty_iff.
Qed.

Lemma offered_report_has_failed_tests_witness :
  ∃ conds,
    find_conditions (stored_answers (Sample.session ∅) ["10"] Sample.tests)
      Sample.tests = inr conds ∧
    (conds = ∅ ↔
     failed_tests (stored_answers (Sample.session ∅) ["10"] Sample.tests) = []).
Proof.
  destruct (offered_report_has_failed_tests elements_iteration
              (Sample.session ∅) Sample.exercises ["10"] Sample.tests [])
    as (_ & conds & Hconds & Hempty & _).
  - vm_compute. repeat constructor; set_solver.
  - exists conds. split; [exact Hconds | exact Hempty].
Defined.

Lemma symptom_id_lookup (symptoms : list Symptom) (selected : string) :
  selected ∈ body_parts symptoms →
  ∃ sid, item0 (symptom_id <$>
                  filter (λ r, symptom_name r = selected) symptoms) = inr sid.
Proof.
  unfold body_parts. rewrite elem_of_unique, list_elem_of_fmap.
  intros (r & -> & Hr).
  assert (r ∈ filter (λ r', symptom_name r' = symptom_name r) symptoms) as Hin
    by (by apply list_elem_of_filter).
  destruct (filter _ symptoms) as [|r0 l]; [by apply elem_of_nil in Hin|].
  by eexists.
Qed.

(** ** The whole page *)

Lemma selectbox_value_offered (s : Session) options i x :
  options !! i = Some x →
  ∃ y, selectbox_value s options i = Some y ∧ y ∈ options.
Proof.
  intros Hi. unfold selectbox_value.
  assert (x ∈ options) by (by eapply list_elem_of_lookup_2).
  destruct (selectbox_state s) as [pick|]; [|eauto].
  destruct (decide (pick ∈ options)); eauto.
Qed.

Lemma run_select_total (s : Session) p0 ps out :
  query_params s !! "body_part" ≠ Some [] →
  ∃ i selected ws,
    select_body_part s (p0 :: ps) out = (inr (Some selected), out ++ ws) ∧
    selected ∈ p0 :: ps ∧
    (ws = [st_selectbox "Which part of your body is experiencing pain?"
             (p0 :: ps) i] ∨
     ∃ text,
       ws = [st_warning text;
             st_selectbox "Which part of your body is experiencing pain?"
               (p0 :: ps) i]).
Proof.
  intros Hparam.
  destruct (query_params s !! "body_part") as [[|v vs]|] eqn:Hq; [done| |].
  - destruct (decide (v ∈ p0 :: ps)) as [Hgood|Hbad].
    + destruct (index_of_elem v _ Hgood) as (i & Hindex & Hi).
      destruct (selectbox_value_offered s _ _ _ Hi) as (y & Hy & Hin).
      exists i, y. eexists. split_and!; [|done|by left].
      by rewrite (run_select_valid s _ v vs i), Hy.
    + destruct (selectbox_value_offered s (p0 :: ps) 0 p0 eq_refl)
        as (y & Hy & Hin).
      exists 0%nat, y. eexists. split_and!; [|done|right; by eexists].
      by rewrite (run_select_invalid s _ _ v vs), Hy.
  - destruct (selectbox_value_offered s (p0 :: ps) 0 p0 eq_refl)
      as (y & Hy & Hin).
    exists 0%nat, y. eexists. split_and!; [|done|by left].
    by rewrite run_select_default, Hy.
Qed.

Lemma test_mode_total (params : gmap string (list string)) :
  params !! "test_mode" ≠ Some [] → ∃ flag, test_mode params = inr flag.
Proof.
  intros Hparam. unfold test_mode.
  destruct (params !! "test_mode") as [[|v vs]|]; [done | |]; by eexists.
Qed.

(** The page up to step 3, for a non-empty symptoms table. *)
Lemma run_main (o : iteration) (first : Symptom) (others : list Symptom)
    (tests : list Test) (exercises : list Exercise) (s : Session) :
  query_params s !! "test_mode" ≠ Some [] →
  query_params s !! "body_part" ≠ Some [] →
  ∃ flag selected ws sid,
    test_mode (query_params s) = inr flag ∧
    selected ∈ body_parts (first :: others) ∧
    (∀ w, w ∈ ws → (∃ text, w = st_warning text) ∨
                   (∃ label options i, w = st_selectbox label options i)) ∧
    item0 (symptom_id <$>
             filter (λ r, symptom_name r = selected) (first :: others)) =
      inr sid ∧
    run (main o (first :: others) tests exercises s) =
      if PyStr.truthy selected
      then
        step3 o s exercises flag
          (stored_answers s (default [] (query_params s !! "failed_tests"))
             (relevant_tests tests sid))
          (relevant_tests tests sid)
          ([st_title "Rehabilitation Assistant";
            st_header "Step 1: Identify Your Pain Location"] ++ ws ++
           [st_header "Step 2: Perform Physical Tests";
            st_write "Please perform these tests carefully. Stop if you experience severe pain."]
           ++ (relevant_tests tests sid ≫=
                 test_widgets (default [] (query_params s !! "failed_tests"))))
      else
        (inr (),
         [st_title "Rehabilitation Assistant";
          st_header "Step 1: Identify Your Pain Location"] ++ ws).
Proof.
  intros Hmode Hpart.
  destruct (test_mode_total _ Hmode) as [flag Hflag].
  assert (body_parts (first :: others) =
          symptom_name first :: unique_from [symptom_name first]
                                  (symptom_name <$> others)) as Hparts.
  { unfold body_parts. rewrite fmap_cons. apply unique_cons. }
  destruct (run_select_total s (symptom_name first)
              (unique_from [symptom_name first] (symptom_name <$> others))
              [st_title "Rehabilitation Assistant";
               st_header "Step 1: Identify Your Pain Location"] Hpart)
    as (i & selected & ws & Hselect & Hin & Hws).
  rewrite <- Hparts in Hselect, Hin.
  destruct (symptom_id_lookup (first :: others) selected Hin) as [sid Hsid].
  exists flag, selected, ws, sid. split_and!; [done | done | | done |].
  - intros w Hw. destruct Hws as [->|[text ->]].
    + apply list_elem_of_singleton in Hw as ->. right. by eexists _, _, _.
    + apply elem_of_cons in Hw as [->|Hw]; [left; by eexists|].
      apply list_elem_of_singleton in Hw as ->. right. by eexists _, _, _.
  - unfold run, main. cbv zeta.
    rewrite run_emit_bind, run_lift_bind, Hflag, run_emit_bind.
    rewrite run_bind. simpl app at 1. rewrite Hselect.
    destruct (PyStr.truthy selected); [|by rewrite run_ret].
    rewrite run_lift_bind, Hsid, !run_emit_bind, run_bind.
    rewrite run_ask_tests_from. fold (stored_answers s
      (default [] (query_params s !! "failed_tests"))
      (relevant_tests tests sid)).
    by rewrite <- !app_assoc.
Qed.




(** X11.  With an empty symptoms table the page raises [IndexError] at
    line 101, after the title and the header of step 1: the default
    [body_parts[0]] is evaluated whether or not a [body_part] parameter
    is given. *)
Theorem main_without_symptoms (o : iteration) (tests : list Test)
    (exercises : list Exercise) (s : Session) :
  query_params s !! "test_mode" ≠ Some [] →
  run (main o [] tests exercises s) =
    (inl IndexError,
     [st_title "Rehabilitation Assistant";
      st_header "Step 1: Identify Your Pain Location"]).
Proof.
  intros Hmode. destruct (test_mode_total _ Hmode) as [flag Hflag].
  unfold run, main. cbv zeta.
  rewrite run_emit_bind, run_lift_bind, Hflag, run_emit_bind, run_bind.
  by rewrite run_select_no_symptoms.
Qed.

Lemma main_without_symptoms_witness :
  run (main elements_iteration [] Sample.tests Sample.exercises
         (Sample.session {[ "body_part" := ["Knee Pain"] ]})) =
    (inl IndexError,
     [st_title "Rehabilitation Assistant";
      st_header "Step 1: Identify Your Pain Location"]).
Proof.
  apply main_without_symptoms. intros Hq. vm_compute in Hq. discriminate.
Defined.

(** X12.  Without test mode and without a click on the confirmation
    button, the page ends with that button: it shows no Diagnostic
    header and offers no document. *)
Theorem no_report_without_confirmation (o : iteration)
    (symptoms : list Symptom) (tests : list Test) (exercises : list Exercise)
    (s : Session) :
  symptoms ≠ [] →
  query_params s !! "body_part" ≠ Some [] →
  test_mode (query_params s) = inr false →
  button_clicked s = false →
  let out := (run (main o symptoms tests exercises s)).2 in
  (st_header "Diagnostic" ∉ out) ∧
  (∀ label doc file_name mime,
     st_download_button label doc file_name mime ∉ out).
Proof.
  intros Hsymptoms Hpart Hflag Hbutton.
  destruct symptoms as [|first others]; [done|].
  assert (query_params s !! "test_mode" ≠ Some []) as Hmode.
  { intros Hq. unfold test_mode in Hflag. by rewrite Hq in Hflag. }
  destruct (run_main o first others tests exercises s Hmode Hpart)
    as (flag & selected & ws & sid & Hflag' & _ & Hws & _ & Hrun).
  rewrite Hflag in Hflag'. injection Hflag' as <-.
  simpl. rewrite Hrun. clear Hrun.
  assert (∀ w ids (rows : list Test),
            w ∈ rows ≫= test_widgets ids →
            (∃ spec, w = st_columns spec) ∨ (∃ i w', w = st_in_column i w'))
    as Hwidgets.
  { intros w ids rows (t & Hw & _)%list_elem_of_bind.
    unfold test_widgets in Hw.
    repeat (apply elem_of_cons in Hw as [->|Hw]; [naive_solver|]).
    by apply elem_of_nil in Hw. }
  destruct (PyStr.truthy selected).
  - rewrite run_step3, Hbutton. simpl orb. cbn [snd]. split.
    + rewrite !elem_of_app, !elem_of_cons, elem_of_nil.
      intros [[[?|[?|?]]|[Hw|[[?|[?|?]]|Hw]]]|[?|[]]]; try done.
      * apply Hws in Hw. naive_solver.
      * apply Hwidgets in Hw. naive_solver.
    + intros label doc file_name mime.
      rewrite !elem_of_app, !elem_of_cons, elem_of_nil.
      intros [[[?|[?|?]]|[Hw|[[?|[?|?]]|Hw]]]|[?|[]]]; try done.
      * apply Hws in Hw. naive_solver.
      * apply Hwidgets in Hw. naive_solver.
  - cbn [snd]. split.
    + rewrite !elem_of_app, !elem_of_cons, elem_of_nil.
      intros [[?|[?|?]]|Hw]; try done. apply Hws in Hw. naive_solver.
    + intros label doc file_name mime.
      rewrite !elem_of_app, !elem_of_cons, elem_of_nil.
      intros [[?|[?|?]]|Hw]; try done. apply Hws in Hw. naive_solver.
Qed.

Lemma no_report_without_confirmation_witness :
  st_header "Diagnostic" ∉
    (run (main elements_iteration Sample.symptoms Sample.tests
            Sample.exercises (Sample.session {[ "failed_tests" := ["10"] ]}))).2.
Proof.
  apply (no_report_without_confirmation elements_iteration Sample.symptoms
           Sample.tests Sample.exercises
           (Sample.session {[ "failed_tests" := ["10"] ]})); [done | | done | done].
  intros Hq. vm_compute in Hq. discriminate.
Defined.

(** ** The layout of the document *)

Section layout.
Variables (o : iteration) (test_results : PyDict.t bool)
  (conds : gset string) (recommended : list Exercise).

Lemma headings_app doc doc' : headings (doc ++ doc') = headings doc ++ headings doc'.
Proof. unfold headings. apply omap_app. Qed.

Lemma tables_app doc doc' : tables (doc ++ doc') = tables doc ++ tables doc'.
Proof. unfold tables. apply omap_app. Qed.

Lemma no_heading_no_table_in_items (f : string → string) (l : list string) :
  headings ((λ x, Paragraph (f x) Normal) <$> l) = [] ∧
  tables ((λ x, Paragraph (f x) Normal) <$> l) = [].
Proof. induction l as [|x l IH]; [done | apply IH]. Qed.

Lemma layout_of_failed_tests_section :
  headings (failed_tests_section test_results) = ["Failed Tests"] ∧
  tables (failed_tests_section test_results) = [].
Proof.
  unfold failed_tests_section. rewrite !headings_app, !tables_app.
  destruct (failed_tests test_results) as [|n names]; [done|].
  destruct (no_heading_no_table_in_items (λ x, "- " +:+ x) (n :: names))
    as [-> ->].
  done.
Qed.

Lemma layout_of_diagnostic_section :
  headings (diagnostic_section o conds) = ["Diagnostic"] ∧
  tables (diagnostic_section o conds) = [].
Proof.
  unfold diagnostic_section. rewrite !headings_app, !tables_app.
  destruct (decide (conds ≠ ∅)); [|done].
  destruct (no_heading_no_table_in_items condition_label (iter o conds))
    as [-> ->].
  done.
Qed.
End layout.

(** X13.  Whenever [generate_pdf] builds its list of elements, the list
    opens with the title paragraph and has exactly three section
    headings, in this order: Failed Tests, Diagnostic, Training Advice;
    the entries for tests, conditions and exercises are never
    headings. *)
Theorem document_headings (o : iteration) (test_results : PyDict.t bool)
    (conds : gset string) (recommended : list Exercise) :
  head (generate_pdf o test_results conds recommended) =
    Some (Paragraph "Rehabilitation Assistant Report" Title) ∧
  headings (generate_pdf o test_results conds recommended) =
    ["Failed Tests"; "Diagnostic"; "Training Advice"].
Proof.
  split; [done|]. unfold generate_pdf. rewrite !headings_app.
  destruct (layout_of_failed_tests_section test_results) as [-> _].
  destruct (layout_of_diagnostic_section o conds) as [-> _].
  unfold training_advice_section. by destruct recommended.
Qed.

(** X14.  The document has a table only when an exercise is
    recommended, and then exactly one: the header row followed by one
    row per recommended exercise, every row with four cells, as many
    as there are column widths.  With nothing recommended there is no
    table and the sentence that no exercises are recommended stands in
    its place. *)
Theorem document_table (o : iteration) (test_results : PyDict.t bool)
    (conds : gset string) (recommended : list Exercise) :
  tables (generate_pdf o test_results conds recommended) =
    match recommended with
    | [] => []
    | _ => [(table_header :: (table_row <$> recommended), [100; 200; 80; 80])]
    end ∧
  (∀ data widths,
     (data, widths) ∈ tables (generate_pdf o test_results conds recommended) →
     length data = S (length recommended) ∧
     Forall (λ row, length row = length widths) data) ∧
  (recommended = [] ↔
   Paragraph "No exercises recommended." Normal ∈
     training_advice_section recommended).
Proof.
  assert (tables (generate_pdf o test_results conds recommended) =
    match recommended with
    | [] => []
    | _ => [(table_header :: (table_row <$> recommended), [100; 200; 80; 80])]
    end) as Htables.
  { unfold generate_pdf. rewrite !tables_app.
    destruct (layout_of_failed_tests_section test_results) as [_ ->].
    destruct (layout_of_diagnostic_section o conds) as [_ ->].
    unfold training_advice_section. by destruct recommended. }
  split_and!; [done | |].
  - intros data widths. rewrite Htables.
    destruct recommended as [|e l]; [by intros ?%elem_of_nil|].
    intros [= -> ->]%list_elem_of_singleton. split.
    + simpl. by rewrite length_fmap.
    + apply Forall_forall. intros row [->|Hrow]%elem_of_cons; [done|].
      change (row ∈ table_row <$> e :: l) in Hrow.
      by apply list_elem_of_fmap in Hrow as (e' & -> & _).
  - unfold training_advice_section. destruct recommended as [|e l].
    + split; [set_solver | done].
    + split; [done|]. simpl.
      intros Hin. repeat (apply elem_of_cons in Hin as [?|Hin]; [done|]).
      by apply elem_of_nil in Hin.
Qed.

(** ** The sets and repetitions cell *)

Lemma pretty_N_go_without_x (x : N) (s : string) :
  without_x s → without_x (pretty_N_go x s).
Proof.
  revert s. induction (N.lt_wf_0 x) as [x _ IH]; intros s Hs.
  assert (x = 0 ∨ 0 < x)%N as [->|Hpos] by lia.
  - by rewrite pretty_N_go_0.
  - rewrite pretty_N_go_step by done. apply IH.
    { by apply N.div_lt. }
    split; [|done]. unfold pretty_N_char. by repeat case_match.
Qed.

Lemma pretty_Z_without_x (z : Z) : without_x (pretty z).
Proof.
  assert (∀ p : positive, without_x (pretty p)) as Hpos.
  { intros p. unfold pretty, pretty_positive, pretty, pretty_N.
    destruct (decide (N.pos p = 0%N)); [done|].
    by apply pretty_N_go_without_x. }
  destruct z as [|p|p]; [done | apply Hpos |].
  split; [done | apply Hpos].
Qed.

Lemma split_at_x (a b c d : string) :
  without_x a → without_x c →
  a +:+ "x" +:+ b = c +:+ "x" +:+ d → a = c ∧ b = d.
Proof.
  revert c. induction a as [|ch a IH]; intros [|ch' c] Ha Hc Heq;
    simpl in *.
  - by simplify_eq.
  - simplify_eq. by destruct Hc.
  - simplify_eq. by destruct Ha.
  - injection Heq as -> Heq. destruct Ha as [_ Ha], Hc as [_ Hc].
    destruct (IH c Ha Hc Heq) as [-> ->]. done.
Qed.

(** X15.  The cell [SxR] determines both numbers: two exercises with
    the same cell have the same sets and the same repetitions. *)
Theorem sets_x_reps_determines (e e' : Exercise) :
  sets_x_reps e = sets_x_reps e' → sets e = sets e' ∧ reps e = reps e'.
Proof.
  unfold sets_x_reps. intros Heq.
  apply split_at_x in Heq as [Hsets Hreps]; [|apply pretty_Z_without_x..].
  split; by apply (inj pretty).
Qed.

Lemma sets_x_reps_determines_witness :
  sets Sample.decline_squat = 3 ∧ reps Sample.decline_squat = 15.
Proof.
  apply (sets_x_reps_determines Sample.decline_squat
           {| exercise_name := "Other"; description := "Other.";
              sets := 3; reps := 15; frequency := "Weekly";
              condition := "other"; image := None |}).
  reflexivity.
Defined.
